(** * Arthatrack: the spending-analytics engine (src/lib/aiAnalytics.ts)

    A shallow embedding of [analyzeSpendingPatterns] and
    [predictNextMonthSpending] with their helpers, and the properties the
    specification states about them.

    Conventions of the embedding:
    - a JavaScript [number] is an IEEE 754 binary64 value, here a primitive
      [float]; the arithmetic operators, comparisons, [Math.abs] and
      [Math.sqrt] are the primitive operations, so NaN, the infinities and
      the signed zeros behave as they do in the engine;
    - [new Date()] is the argument [now] of the functions that read the
      clock; all reads of one call see the same calendar day;
    - a date is the local calendar day of the timestamp ([new Date (t.date)]
      is kept parsed in the transaction);
    - [format (d, 'yyyy-MM')] is the pair (year, month) it prints;
    - a [Map] is a list of bindings in insertion order; the [groups] object
      is a list of bindings together with the property order of
      [Object.entries];
    - a template literal is kept as its template and interpolated values
      ([toFixed] is not rendered). *)

From Stdlib Require Import ZArith Bool String List Permutation Sorted Floats Lia.
From Stdlib Require Uint63.
Import ListNotations.

Local Open Scope float_scope.

(* Decimal literals such as 0.7 denote the nearest binary64 value, as in
   JavaScript. *)
#[local] Set Warnings "-inexact-float".

(** ** JavaScript numbers and the built-ins the engine calls *)

Module JS.

Definition number := float.

(** Array lengths and indices as numbers (exact below 2^53). *)
Definition number_of_nat (n : nat) : number :=
  of_uint63 (Uint63.of_Z (Z.of_nat n)).

(** ToBoolean on a number: [0], [-0] and [NaN] are falsy. *)
Definition truthy (x : number) : bool := negb ((x =? 0) || is_nan x).

(** [v || 0] where [v] is a number or [undefined]. *)
Definition or_zero (v : option number) : number :=
  match v with
  | Some x => if truthy x then x else 0
  | None => 0
  end.

Definition is_pos_zero (x : number) : bool :=
  match classify x with PZero => true | _ => false end.

Definition is_neg_zero (x : number) : bool :=
  match classify x with NZero => true | _ => false end.

(** [Math.max (...args)]: NaN as soon as an argument is NaN, [+0] above
    [-0], [-Infinity] without arguments. *)
Fixpoint Math_max_from (highest : number) (args : list number) : number :=
  match args with
  | [] => highest
  | x :: rest =>
      if is_nan x then nan
      else if is_pos_zero x && is_neg_zero highest then Math_max_from x rest
      else if highest <? x then Math_max_from x rest
      else Math_max_from highest rest
  end.

Definition Math_max (args : list number) : number :=
  Math_max_from neg_infinity args.

(** [Math.min (...args)]: NaN as soon as an argument is NaN, [-0] below
    [+0], [Infinity] without arguments. *)
Fixpoint Math_min_from (lowest : number) (args : list number) : number :=
  match args with
  | [] => lowest
  | x :: rest =>
      if is_nan x then nan
      else if is_neg_zero x && is_pos_zero lowest then Math_min_from x rest
      else if x <? lowest then Math_min_from x rest
      else Math_min_from lowest rest
  end.

Definition Math_min (args : list number) : number :=
  Math_min_from infinity args.

Definition Math_abs (x : number) : number := PrimFloat.abs x.

Definition Math_sqrt (x : number) : number := PrimFloat.sqrt x.

(** [Math.pow (x, 2)], the only exponent the engine uses. *)
Definition Math_pow_2 (x : number) : number := x * x.

(** [s || fallback] on an optional string: [undefined] and the empty
    string are falsy. *)
Definition or_string (s : option string) (fallback : string) : string :=
  match s with
  | Some EmptyString => fallback
  | Some str => str
  | None => fallback
  end.

(** [xs.reduce ((sum, val) => sum + val, 0)]. *)
Definition sum (xs : list number) : number :=
  fold_left (fun sum val => sum + val) xs 0.

End JS.

Import JS.

(** ** Calendar dates and the date-fns functions the engine calls *)

Record Date := mkDate { year : Z; month : Z; day : Z }.

(** The text of [format (d, 'yyyy-MM')], as the pair it is printed from. *)
Definition MonthKey := (Z * Z)%type.

Definition monthKey_eqb (a b : MonthKey) : bool :=
  (fst a =? fst b)%Z && (snd a =? snd b)%Z.

Definition format_yyyy_MM (d : Date) : MonthKey := (year d, month d).

Definition isLeapYear (y : Z) : bool :=
  ((y mod 400 =? 0) || ((y mod 4 =? 0) && negb (y mod 100 =? 0)))%Z.

Definition getDaysInMonth (y m : Z) : Z :=
  if (m =? 2)%Z then (if isLeapYear y then 29 else 28)%Z
  else if ((m =? 4) || (m =? 6) || (m =? 9) || (m =? 11))%Z then 30%Z
  else 31%Z.

(** [subMonths (d, n)]: the same day [n] months earlier, the day of the
    month capped by the length of the month reached. *)
Definition subMonths (d : Date) (n : Z) : Date :=
  let months := (year d * 12 + (month d - 1) - n)%Z in
  let y := (months / 12)%Z in
  let m := (months mod 12 + 1)%Z in
  mkDate y m (Z.min (day d) (getDaysInMonth y m)).

Definition startOfMonth (d : Date) : Date := mkDate (year d) (month d) 1.

Definition endOfMonth (d : Date) : Date :=
  mkDate (year d) (month d) (getDaysInMonth (year d) (month d)).

Definition date_leb (a b : Date) : bool :=
  ((year a <? year b)
   || ((year a =? year b)
       && ((month a <? month b)
           || ((month a =? month b) && (day a <=? day b)))))%Z.

Definition isWithinInterval (d start_ end_ : Date) : bool :=
  date_leb start_ d && date_leb d end_.

(** ** [Map]: bindings in insertion order *)

Module JSMap.
Section WithKey.
Context {K V : Type} (eqb : K -> K -> bool).

Definition t := list (K * V).

Definition empty : t := [].

Fixpoint get (k : K) (m : t) : option V :=
  match m with
  | [] => None
  | (k', v) :: rest => if eqb k k' then Some v else get k rest
  end.

(** [set] keeps the position of a key already present and appends a
    new one. *)
Fixpoint set (k : K) (v : V) (m : t) : t :=
  match m with
  | [] => [(k, v)]
  | (k', v') :: rest =>
      if eqb k k' then (k, v) :: rest else (k', v') :: set k v rest
  end.

Definition values (m : t) : list V := map snd m.
End WithKey.
End JSMap.

(** ** The [groups] object: properties keyed by a category id *)

Module JSObject.
Section WithValue.
Context {V : Type}.

Definition t := list (Z * V).

Definition get (k : Z) (o : t) : option V := JSMap.get Z.eqb k o.

Definition set (k : Z) (v : V) (o : t) : t := JSMap.set Z.eqb k v o.

(** Integer keys from 0 to 2^32 - 2 are array indices. *)
Definition is_array_index (k : Z) : bool :=
  ((0 <=? k) && (k <? 2 ^ 32 - 1))%Z.

Fixpoint insert_by_key (e : Z * V) (sorted : list (Z * V)) : list (Z * V) :=
  match sorted with
  | [] => [e]
  | e' :: rest =>
      if (fst e <=? fst e')%Z then e :: sorted
      else e' :: insert_by_key e rest
  end.

Definition sort_by_key (l : list (Z * V)) : list (Z * V) :=
  fold_right insert_by_key [] l.

(** [Object.entries]: array-index keys in ascending order, then the
    other keys in insertion order. *)
Definition entries (o : t) : list (Z * V) :=
  sort_by_key (filter (fun e => is_array_index (fst e)) o)
  ++ filter (fun e => negb (is_array_index (fst e))) o.
End WithValue.
End JSObject.

(** ** src/types/index.ts *)

Inductive TransactionType := income | expense.

Record Category := mkCategory {
  cat_id : Z;
  name : string;
  color : string;
  icon : string;
  cat_created_at : string;
  cat_user_id : string
}.

Record Transaction := mkTransaction {
  tx_id : Z;
  amount : number;
  date : Date;
  description : string;
  category_id : Z;
  type : TransactionType;
  created_at : string;
  user_id : string;
  category : option Category
}.

Definition is_expense (t : Transaction) : bool :=
  match type t with expense => true | income => false end.

(** ** The outputs of the engine *)

Inductive InsightType := warning | success | info.

Inductive Trend := up | down | stable.

(** The four template literals of the engine with their interpolated
    values. *)
Inductive Message :=
| SpendingIncreased (percentage : number)
| SpendingReduced (percentage : number)
| UnusualSpending (categoryName : string) (percentage : number)
| SpentAsLowAs (minimum : number) (categoryName : string)
               (potentialSavings : number).

Record SpendingInsight := mkInsight {
  insight_type : InsightType;
  message : Message;
  value : option number;
  trend : option Trend
}.

Record CategoryPrediction := mkPrediction {
  categoryId : Z;
  predictedAmount : number;
  confidence : number
}.

(** The object returned by [analyzeSpendingTrend]. *)
Record SpendingTrend := mkTrend {
  trend_direction : Trend;
  trend_percentage : number
}.

(** An element of the array returned by [detectUnusualSpending]. *)
Record UnusualCategory := mkUnusual {
  unusual_name : string;
  unusual_percentage : number
}.

(** An element of the array returned by [findSavingsOpportunities]. *)
Record Opportunity := mkOpportunity {
  opportunity_message : Message;
  potentialSavings : number
}.

(** ** The regression package

    [SimpleLinearRegression] comes from the package
    ml-regression-simple-linear; the engine uses its constructor and its
    methods [predict] and [score]. *)

Class SimpleLinearRegressionLib := {
  Regression : Type;
  new_SimpleLinearRegression : list number -> list number -> Regression;
  regression_predict : Regression -> number -> number;
  regression_score : Regression -> list number -> list number -> number
}.

(** Modelled from the spec: the package ml-regression-simple-linear is not
    among the sources.  The specification describes it as the closed-form
    ordinary least-squares fit of a line through the points, with the
    coefficient of determination of that line over the same points as its
    score. *)
Module OLS.

Record Line := mkLine { slope : number; intercept : number }.

Definition sum_of_products (xs ys : list number) : number :=
  JS.sum (map (fun p => fst p * snd p) (combine xs ys)).

Definition fit (x y : list number) : Line :=
  let n := number_of_nat (length x) in
  let xSum := JS.sum x in
  let ySum := JS.sum y in
  let xSquared := sum_of_products x x in
  let xY := sum_of_products x y in
  let slope := (n * xY - xSum * ySum) / (n * xSquared - xSum * xSum) in
  mkLine slope (ySum / n - slope * (xSum / n)).

Definition predict (l : Line) (x : number) : number :=
  slope l * x + intercept l.

(** R² = 1 - SSres / SStot. *)
Definition score (l : Line) (x y : list number) : number :=
  let mean := JS.sum y / number_of_nat (length y) in
  let ssRes :=
    JS.sum (map (fun p => Math_pow_2 (snd p - predict l (fst p)))
                (combine x y)) in
  let ssTot := JS.sum (map (fun v => Math_pow_2 (v - mean)) y) in
  1 - ssRes / ssTot.

End OLS.

#[export] Instance OLS_lib : SimpleLinearRegressionLib := {
  Regression := OLS.Line;
  new_SimpleLinearRegression := OLS.fit;
  regression_predict := OLS.predict;
  regression_score := OLS.score
}.

(** ** src/lib/aiAnalytics.ts: helper functions *)

(** The property key of a group is the category id (an integer, printed
    by the object and read back by [parseInt]); [groups[categoryId]] is
    created empty when absent and the transaction is pushed onto it. *)
Definition groupTransactionsByCategory (transactions : list Transaction)
  : JSObject.t (V := list Transaction) :=
  fold_left
    (fun groups transaction =>
       match type transaction with
       | expense =>
           let categoryId := category_id transaction in
           let groups :=
             match JSObject.get categoryId groups with
             | None => JSObject.set categoryId [] groups
             | Some _ => groups
             end in
           match JSObject.get categoryId groups with
           | Some group => JSObject.set categoryId (group ++ [transaction]) groups
           | None => groups
           end
       | income => groups
       end)
    transactions [].

Definition calculateMonthlyAmounts (transactions : list Transaction)
  : list number :=
  let monthlyAmounts :=
    fold_left
      (fun monthlyAmounts transaction =>
         let monthKey := format_yyyy_MM (date transaction) in
         let currentAmount := or_zero (JSMap.get monthKey_eqb monthKey monthlyAmounts) in
         JSMap.set monthKey_eqb monthKey (currentAmount + amount transaction)
                   monthlyAmounts)
      transactions JSMap.empty in
  JSMap.values monthlyAmounts.

(** [monthlyAmounts.slice (0, -1)], commented "Exclude current month" in
    the source: every element but the last. *)
Definition calculateMonthlyAverages (transactions : list Transaction)
  : list number :=
  let monthlyAmounts := calculateMonthlyAmounts transactions in
  removelast monthlyAmounts.

Definition calculateCurrentMonthSpending (now : Date)
    (transactions : list Transaction) : number :=
  let currentMonth := now in
  fold_left (fun sum t => sum + amount t)
    (filter (fun t => isWithinInterval (date t) (startOfMonth currentMonth)
                                       (endOfMonth currentMonth))
            transactions)
    0.

Definition calculateStandardDeviation (values : list number) : number :=
  let mean := JS.sum values / number_of_nat (length values) in
  let squaredDiffs := map (fun val => Math_pow_2 (val - mean)) values in
  let variance := JS.sum squaredDiffs / number_of_nat (length values) in
  Math_sqrt variance.

(** [categoryTransactions[0].category?.name || 'Uncategorized'].  A group
    is never empty ([groups_nonempty] below), so the first element is
    there whenever the engine evaluates this. *)
Definition categoryName (categoryTransactions : list Transaction) : string :=
  match categoryTransactions with
  | first :: _ => or_string (option_map name (category first)) "Uncategorized"
  | [] => "Uncategorized"
  end.

(** ** src/lib/aiAnalytics.ts: the analyses *)

Definition calculateMonthlySpending (transactions : list Transaction)
  : JSMap.t (K := MonthKey) (V := number) :=
  fold_left
    (fun monthlySpending transaction =>
       match type transaction with
       | expense =>
           let monthKey := format_yyyy_MM (date transaction) in
           let currentAmount :=
             or_zero (JSMap.get monthKey_eqb monthKey monthlySpending) in
           JSMap.set monthKey_eqb monthKey (currentAmount + amount transaction)
                     monthlySpending
       | income => monthlySpending
       end)
    transactions JSMap.empty.

Definition currentSpendingOf (now : Date) (monthlySpending : JSMap.t) : number :=
  or_zero (JSMap.get monthKey_eqb (format_yyyy_MM now) monthlySpending).

Definition lastSpendingOf (now : Date) (monthlySpending : JSMap.t) : number :=
  or_zero (JSMap.get monthKey_eqb (format_yyyy_MM (subMonths now 1))
                     monthlySpending).

Definition analyzeSpendingTrend (now : Date) (monthlySpending : JSMap.t)
  : SpendingTrend :=
  let currentSpending := currentSpendingOf now monthlySpending in
  let lastSpending := lastSpendingOf now monthlySpending in
  if lastSpending =? 0 then mkTrend stable 0
  else
    let percentageChange :=
      ((currentSpending - lastSpending) / lastSpending) * 100 in
    mkTrend (if 0 <? percentageChange then up else down)
            (Math_abs percentageChange).

Definition detectUnusualSpending (now : Date)
    (transactions : list Transaction) : list UnusualCategory :=
  let categoryGroups := groupTransactionsByCategory transactions in
  fold_left
    (fun unusualCategories entry =>
       let categoryTransactions := snd entry in
       let monthlyAverages := calculateMonthlyAverages categoryTransactions in
       let currentMonthSpending :=
         calculateCurrentMonthSpending now categoryTransactions in
       if (3 <=? length monthlyAverages)%nat then
         let average :=
           JS.sum monthlyAverages / number_of_nat (length monthlyAverages) in
         let standardDev := calculateStandardDeviation monthlyAverages in
         if average + 2 * standardDev <? currentMonthSpending then
           let percentage :=
             ((currentMonthSpending - average) / average) * 100 in
           unusualCategories
             ++ [mkUnusual (categoryName categoryTransactions) percentage]
         else unusualCategories
       else unusualCategories)
    (JSObject.entries categoryGroups) [].

Definition findSavingsOpportunities (transactions : list Transaction)
  : list Opportunity :=
  let categoryGroups := groupTransactionsByCategory transactions in
  fold_left
    (fun opportunities entry =>
       let categoryTransactions := snd entry in
       let monthlyAmounts := calculateMonthlyAmounts categoryTransactions in
       if (3 <=? length monthlyAmounts)%nat then
         let average :=
           JS.sum monthlyAmounts / number_of_nat (length monthlyAmounts) in
         let minimum := Math_min monthlyAmounts in
         if minimum <? average * 0.7 then
           let potentialSavings := average - minimum in
           opportunities
             ++ [mkOpportunity
                   (SpentAsLowAs minimum (categoryName categoryTransactions)
                                 potentialSavings)
                   potentialSavings]
         else opportunities
       else opportunities)
    (JSObject.entries categoryGroups) [].

Definition analyzeSpendingPatterns (now : Date)
    (transactions : list Transaction) : list SpendingInsight :=
  let insights := [] in
  let monthlySpending := calculateMonthlySpending transactions in
  let spendingTrend := analyzeSpendingTrend now monthlySpending in
  let unusualCategories := detectUnusualSpending now transactions in
  let insights :=
    match trend_direction spendingTrend with
    | up =>
        if 10 <? trend_percentage spendingTrend then
          insights
            ++ [mkInsight warning
                  (SpendingIncreased (trend_percentage spendingTrend))
                  (Some (trend_percentage spendingTrend)) (Some up)]
        else insights
    | down =>
        if 10 <? trend_percentage spendingTrend then
          insights
            ++ [mkInsight success
                  (SpendingReduced (trend_percentage spendingTrend))
                  (Some (trend_percentage spendingTrend)) (Some down)]
        else insights
    | stable => insights
    end in
  let insights :=
    fold_left
      (fun insights category =>
         insights
           ++ [mkInsight warning
                 (UnusualSpending (unusual_name category)
                                  (unusual_percentage category))
                 (Some (unusual_percentage category)) (Some up)])
      unusualCategories insights in
  let savingsOpportunities := findSavingsOpportunities transactions in
  let insights :=
    fold_left
      (fun insights opportunity =>
         insights
           ++ [mkInsight info (opportunity_message opportunity)
                 (Some (potentialSavings opportunity)) None])
      savingsOpportunities insights in
  insights.

Definition predictNextMonthSpending `{SimpleLinearRegressionLib}
    (transactions : list Transaction) : list CategoryPrediction :=
  let categoryGroups := groupTransactionsByCategory transactions in
  fold_left
    (fun predictions entry =>
       let categoryId := fst entry in
       let categoryTransactions := snd entry in
       let monthlyAmounts := calculateMonthlyAmounts categoryTransactions in
       if (3 <=? length monthlyAmounts)%nat then
         let x := map number_of_nat (seq 0 (length monthlyAmounts)) in
         let y := monthlyAmounts in
         let regression := new_SimpleLinearRegression x y in
         let nextMonthPrediction :=
           regression_predict regression
                              (number_of_nat (length monthlyAmounts)) in
         let confidence :=
           Math_max [0; Math_min [1; regression_score regression x y]] in
         predictions
           ++ [mkPrediction categoryId (Math_max [0; nextMonthPrediction])
                            confidence]
       else predictions)
    (JSObject.entries categoryGroups) [].

(** ** The engine, category by category

    Each analysis walks [Object.entries (categoryGroups)] and pushes at
    most one element per category.  The functions below are the
    contribution of one category; the lemmas after them say that the loops
    of the engine concatenate these contributions in the order of the
    entries. *)

Definition categoryEntries (transactions : list Transaction)
  : list (Z * list Transaction) :=
  JSObject.entries (groupTransactionsByCategory transactions).

(** The arithmetic mean as the engine computes it. *)
Definition mean (values : list number) : number :=
  JS.sum values / number_of_nat (length values).

Definition unusualOf (now : Date) (categoryTransactions : list Transaction)
  : list UnusualCategory :=
  let history := calculateMonthlyAverages categoryTransactions in
  let current := calculateCurrentMonthSpending now categoryTransactions in
  if (3 <=? length history)%nat
     && (mean history + 2 * calculateStandardDeviation history <? current)
  then [mkUnusual (categoryName categoryTransactions)
                  (((current - mean history) / mean history) * 100)]
  else [].

Definition savingsOf (categoryTransactions : list Transaction)
  : list Opportunity :=
  let totals := calculateMonthlyAmounts categoryTransactions in
  if (3 <=? length totals)%nat && (Math_min totals <? mean totals * 0.7)
  then [mkOpportunity
          (SpentAsLowAs (Math_min totals) (categoryName categoryTransactions)
                        (mean totals - Math_min totals))
          (mean totals - Math_min totals)]
  else [].

Definition predictionOf `{SimpleLinearRegressionLib}
    (entry : Z * list Transaction) : list CategoryPrediction :=
  let totals := calculateMonthlyAmounts (snd entry) in
  let x := map number_of_nat (seq 0 (length totals)) in
  let regression := new_SimpleLinearRegression x totals in
  if (3 <=? length totals)%nat
  then [mkPrediction (fst entry)
          (Math_max [0; regression_predict regression
                          (number_of_nat (length totals))])
          (Math_max [0; Math_min [1; regression_score regression x totals]])]
  else [].

Definition trendInsights (spendingTrend : SpendingTrend)
  : list SpendingInsight :=
  match trend_direction spendingTrend with
  | up =>
      if 10 <? trend_percentage spendingTrend then
        [mkInsight warning (SpendingIncreased (trend_percentage spendingTrend))
                   (Some (trend_percentage spendingTrend)) (Some up)]
      else []
  | down =>
      if 10 <? trend_percentage spendingTrend then
        [mkInsight success (SpendingReduced (trend_percentage spendingTrend))
                   (Some (trend_percentage spendingTrend)) (Some down)]
      else []
  | stable => []
  end.

Definition unusualInsight (category : UnusualCategory) : SpendingInsight :=
  mkInsight warning
    (UnusualSpending (unusual_name category) (unusual_percentage category))
    (Some (unusual_percentage category)) (Some up).

Definition savingsInsight (opportunity : Opportunity) : SpendingInsight :=
  mkInsight info (opportunity_message opportunity)
            (Some (potentialSavings opportunity)) None.

(** ** The vocabulary of the specification *)


Definition is_anomaly (insight : SpendingInsight) : bool :=
  match message insight with UnusualSpending _ _ => true | _ => false end.

(** Membership of the closed interval [0, 1]. *)
Definition in_unit_interval (c : number) : bool := (0 <=? c) && (c <=? 1).

Definition in_current_month (now : Date) (t : Transaction) : bool :=
  isWithinInterval (date t) (startOfMonth now) (endOfMonth now).

(** The historical monthly totals of a category in the words of the
    specification: the totals of the months other than the current
    calendar month. *)
Definition priorMonthTotals (now : Date)
    (categoryTransactions : list Transaction) : list number :=
  calculateMonthlyAmounts
    (filter (fun t => negb (in_current_month now t)) categoryTransactions).

(** The anomaly rule in the words of the specification: at least three
    prior months, and a current-month total above the mean of the prior
    months plus twice their population standard deviation. *)
Definition anomalyExpected (now : Date)
    (categoryTransactions : list Transaction) : bool :=
  let history := priorMonthTotals now categoryTransactions in
  (3 <=? length history)%nat
  && (mean history + 2 * calculateStandardDeviation history
      <? calculateCurrentMonthSpending now categoryTransactions).

(** No expense of the list is dated in the month [key]. *)
Definition noExpenseInMonth (key : MonthKey)
    (transactions : list Transaction) : bool :=
  forallb
    (fun t => negb (is_expense t && monthKey_eqb (format_yyyy_MM (date t)) key))
    transactions.

(** The relation between an insight's type and its trend field. *)
Definition trend_matches_type (insight : SpendingInsight) : Prop :=
  match insight_type insight with
  | warning => trend insight = Some up
  | success => trend insight = Some down
  | info => trend insight = None
  end.


(** ** The loop bodies by name

    The callbacks of [reduce] and [forEach] in the helpers, named so that
    facts about one step can be stated. *)

(** The callback of [groupTransactionsByCategory]. *)
Definition groupStep (groups : JSObject.t (V := list Transaction))
    (transaction : Transaction) : JSObject.t :=
  match type transaction with
  | expense =>
      let categoryId := category_id transaction in
      let groups :=
        match JSObject.get categoryId groups with
        | None => JSObject.set categoryId [] groups
        | Some _ => groups
        end in
      match JSObject.get categoryId groups with
      | Some group => JSObject.set categoryId (group ++ [transaction]) groups
      | None => groups
      end
  | income => groups
  end.

(** The callback of [calculateMonthlyAmounts]. *)
Definition monthlyAmountsStep (monthlyAmounts : JSMap.t (K := MonthKey))
    (transaction : Transaction) : JSMap.t :=
  let monthKey := format_yyyy_MM (date transaction) in
  let currentAmount :=
    or_zero (JSMap.get monthKey_eqb monthKey monthlyAmounts) in
  JSMap.set monthKey_eqb monthKey (currentAmount + amount transaction)
            monthlyAmounts.

(** The [Map] that [calculateMonthlyAmounts] builds before it takes the
    values. *)
Definition monthlyAmountsMap (transactions : list Transaction) : JSMap.t :=
  fold_left monthlyAmountsStep transactions JSMap.empty.

(** The callback of [calculateMonthlySpending]. *)
Definition monthlySpendingStep (monthlySpending : JSMap.t (K := MonthKey))
    (transaction : Transaction) : JSMap.t :=
  match type transaction with
  | expense =>
      let monthKey := format_yyyy_MM (date transaction) in
      let currentAmount :=
        or_zero (JSMap.get monthKey_eqb monthKey monthlySpending) in
      JSMap.set monthKey_eqb monthKey (currentAmount + amount transaction)
                monthlySpending
  | income => monthlySpending
  end.

(** An expense of the category [cid]. *)
Definition in_category (cid : Z) (t : Transaction) : bool :=
  is_expense t && (category_id t =? cid)%Z.

(** The insights pushed for the month-over-month trend. *)
Definition is_trend_insight (insight : SpendingInsight) : bool :=
  match message insight with
  | SpendingIncreased _ | SpendingReduced _ => true
  | _ => false
  end.

(** ** src/components/dashboard/AIInsights.tsx *)

Inductive Icon := TrendingUp | TrendingDown | AlertTriangle | CheckCircle | Info.

(** [getIcon]: the trend decides first, then the type; [null] is the
    [default] branch of the switch. *)
Definition getIcon (type_ : InsightType) (trend_ : option Trend)
  : option Icon :=
  match trend_ with
  | Some up => Some TrendingUp
  | Some down => Some TrendingDown
  | _ =>
      match type_ with
      | warning => Some AlertTriangle
      | success => Some CheckCircle
      | info => Some Info
      end
  end.

Definition getTypeStyles (type_ : InsightType) : string :=
  match type_ with
  | warning =>
      "bg-orange-50 dark:bg-orange-900/20 text-orange-700 dark:text-orange-300"
  | success =>
      "bg-green-50 dark:bg-green-900/20 text-green-700 dark:text-green-300"
  | info =>
      "bg-blue-50 dark:bg-blue-900/20 text-blue-700 dark:text-blue-300"
  end.

(** ** src/pages/dashboard/Dashboard.tsx: the insights of the dashboard *)

(** The messages in the array the dashboard hands to [AIInsights]: those
    of the engine and the template literal of the dashboard itself
    ("Based on your spending patterns, you might spend around ... on ...
    next month."). *)
Inductive DashboardMessage :=
| FromEngine (engineMessage : Message)
| MightSpendAround (predictedAmount : number) (categoryName : string).

Record DashboardInsight := mkDashboardInsight {
  shown_type : InsightType;
  shown_message : DashboardMessage;
  shown_value : option number;
  shown_trend : option Trend
}.

(** An insight of the engine as an element of the dashboard's array. *)
Definition fromEngine (insight : SpendingInsight) : DashboardInsight :=
  mkDashboardInsight (insight_type insight) (FromEngine (message insight))
                     (value insight) (trend insight).

(** [categoriesData?.find (c => c.id === prediction.categoryId)]. *)
Definition findCategory (categoriesData : option (list Category))
    (prediction : CategoryPrediction) : option Category :=
  match categoriesData with
  | Some categories =>
      find (fun c => (cat_id c =? categoryId prediction)%Z) categories
  | None => None
  end.

(** [predictions.forEach] in [fetchDashboardData]: a prediction is pushed
    when its confidence is above 0.7 and its category is found. *)
Definition pushPredictions (categoriesData : option (list Category))
    (spendingInsights : list DashboardInsight)
    (predictions : list CategoryPrediction) : list DashboardInsight :=
  fold_left
    (fun spendingInsights prediction =>
       if 0.7 <? confidence prediction then
         match findCategory categoriesData prediction with
         | Some category =>
             spendingInsights
               ++ [mkDashboardInsight info
                     (MightSpendAround (predictedAmount prediction)
                                       (name category))
                     (Some (predictedAmount prediction)) None]
         | None => spendingInsights
         end
       else spendingInsights)
    predictions spendingInsights.

(** The array passed to [setInsights]. *)
Definition insightsForDashboard `{SimpleLinearRegressionLib} (now : Date)
    (transactionsData : list Transaction)
    (categoriesData : option (list Category)) : list DashboardInsight :=
  let spendingInsights :=
    map fromEngine (analyzeSpendingPatterns now transactionsData) in
  let predictions := predictNextMonthSpending transactionsData in
  pushPredictions categoriesData spendingInsights predictions.

(** "Generate AI insights" in [fetchDashboardData]: [None] when
    [setInsights] is not called, which leaves the state as it was. *)
Definition generateInsights `{SimpleLinearRegressionLib} (now : Date)
    (transactionsData : option (list Transaction))
    (categoriesData : option (list Category))
  : option (list DashboardInsight) :=
  match transactionsData with
  | Some (_ :: _ as transactions) =>
      Some (insightsForDashboard now transactions categoriesData)
  | _ => None
  end.

(** ** src/pages/dashboard/Dashboard.tsx: the six-month chart *)

(** [toLocaleDateString ('en-US', { month: 'short' })] of a date whose
    zero-based month is [monthIndex]; [new Date (y, m, 1)] brings a month
    outside 0..11 back into the year before or after. *)
Definition shortMonthName (monthIndex : Z) : string :=
  match (monthIndex mod 12)%Z with
  | 0%Z => "Jan" | 1%Z => "Feb" | 2%Z => "Mar" | 3%Z => "Apr"
  | 4%Z => "May" | 5%Z => "Jun" | 6%Z => "Jul" | 7%Z => "Aug"
  | 8%Z => "Sep" | 9%Z => "Oct" | 10%Z => "Nov" | _ => "Dec"
  end.

(** [now.getMonth ()] and [date.getMonth ()]. *)
Definition getMonth (d : Date) : Z := (month d - 1)%Z.

Record MonthlyChart := mkMonthlyChart {
  chart_labels : list string;
  chart_income : list number;
  chart_expenses : list number
}.

(** The callback of [transactions.forEach] in [prepareMonthlyData], on
    the pair of objects [monthlyIncome] and [monthlyExpenses]. *)
Definition monthlyDataStep (months : list string)
    (sums : JSMap.t (K := string) (V := number)
            * JSMap.t (K := string) (V := number))
    (transaction : Transaction)
  : JSMap.t (K := string) (V := number) * JSMap.t (K := string) (V := number) :=
  let monthlyIncome := fst sums in
  let monthlyExpenses := snd sums in
  let monthStr := shortMonthName (getMonth (date transaction)) in
  if existsb (String.eqb monthStr) months then
    match type transaction with
    | income =>
        (JSMap.set String.eqb monthStr
           (or_zero (JSMap.get String.eqb monthStr monthlyIncome)
            + amount transaction)
           monthlyIncome,
         monthlyExpenses)
    | expense =>
        (monthlyIncome,
         JSMap.set String.eqb monthStr
           (or_zero (JSMap.get String.eqb monthStr monthlyExpenses)
            + amount transaction)
           monthlyExpenses)
    end
  else sums.

Definition prepareMonthlyData (now : Date) (transactions : list Transaction)
  : MonthlyChart :=
  let months :=
    map (fun i => shortMonthName (getMonth now - i)) [5; 4; 3; 2; 1; 0]%Z in
  let sums := fold_left (monthlyDataStep months) transactions ([], []) in
  let incomeData :=
    map (fun month_ => or_zero (JSMap.get String.eqb month_ (fst sums)))
        months in
  let expenseData :=
    map (fun month_ => or_zero (JSMap.get String.eqb month_ (snd sums)))
        months in
  mkMonthlyChart months incomeData expenseData.

(** Two transactions that agree on what the six-month chart reads: the
    month of the year, the type and the amount. *)
Definition same_month_type_amount (t t' : Transaction) : Prop :=
  month (date t) = month (date t') /\ type t = type t'
  /\ amount t = amount t'.

(** ** Objects with string keys

    [categoryExpenses] and [categoryColors] in the charts are objects
    keyed by a category name.  [Object.keys] lists the keys that are
    array indices (canonical decimal strings below 2^32 - 1) in
    ascending numeric order, then the other keys in insertion order. *)

Module JSRecord.
Section WithValue.
Context {V : Type}.

Definition t := list (string * V).

Definition get (k : string) (o : t) : option V := JSMap.get String.eqb k o.

Definition set (k : string) (v : V) (o : t) : t := JSMap.set String.eqb k v o.

Definition digit_of (c : Ascii.ascii) : option N :=
  let n := Ascii.N_of_ascii c in
  if ((48 <=? n) && (n <=? 57))%N then Some (n - 48)%N else None.

Fixpoint digits_value (s : string) (acc : N) : option N :=
  match s with
  | EmptyString => Some acc
  | String c rest =>
      match digit_of c with
      | Some d => digits_value rest (acc * 10 + d)%N
      | None => None
      end
  end.

(** The array index a key denotes, if it is the canonical decimal of a
    number from 0 to 2^32 - 2. *)
Definition array_index (k : string) : option N :=
  match k with
  | EmptyString => None
  | String c rest =>
      match digit_of c, rest with
      | Some 0%N, EmptyString => Some 0%N
      | Some 0%N, _ => None
      | _, _ =>
          match digits_value k 0 with
          | Some n => if (n <? 2 ^ 32 - 1)%N then Some n else None
          | None => None
          end
      end
  end.

Definition is_array_index (k : string) : bool :=
  match array_index k with Some _ => true | None => false end.

Definition index_leb (k k' : string) : bool :=
  match array_index k, array_index k' with
  | Some n, Some n' => (n <=? n')%N
  | _, _ => true
  end.

Fixpoint insert_by_index (e : string * V) (sorted : list (string * V))
  : list (string * V) :=
  match sorted with
  | [] => [e]
  | e' :: rest =>
      if index_leb (fst e) (fst e') then e :: sorted
      else e' :: insert_by_index e rest
  end.

Definition entries (o : t) : list (string * V) :=
  fold_right insert_by_index []
             (filter (fun e => is_array_index (fst e)) o)
  ++ filter (fun e => negb (is_array_index (fst e))) o.

Definition keys (o : t) : list string := map fst (entries o).

Definition values (o : t) : list V := map snd (entries o).
End WithValue.
End JSRecord.

(** ** The pie charts of expenses by category

    [prepareExpensesByCategory] of src/pages/dashboard/Dashboard.tsx and
    [expensesByCategoryData] of the monthly report are the same function
    up to the colour used for a category without one. *)

Record CategoryChart := mkCategoryChart {
  pie_labels : list string;
  pie_data : list number;
  pie_backgroundColor : list (option string)
}.

(** [transaction.category?.name || 'Uncategorized']. *)
Definition categoryNameOf (transaction : Transaction) : string :=
  or_string (option_map name (category transaction)) "Uncategorized".

(** The callback of [forEach] on the pair [categoryExpenses],
    [categoryColors]. *)
Definition expensesByCategoryStep (defaultColor : string)
    (objects : JSRecord.t (V := number) * JSRecord.t (V := string))
    (transaction : Transaction)
  : JSRecord.t (V := number) * JSRecord.t (V := string) :=
  let categoryExpenses := fst objects in
  let categoryColors := snd objects in
  let categoryName := categoryNameOf transaction in
  (JSRecord.set categoryName
     (or_zero (JSRecord.get categoryName categoryExpenses)
      + amount transaction)
     categoryExpenses,
   JSRecord.set categoryName
     (or_string (option_map color (category transaction)) defaultColor)
     categoryColors).

Definition expensesByCategory (defaultColor : string)
    (transactions : list Transaction) : CategoryChart :=
  let objects :=
    fold_left (expensesByCategoryStep defaultColor)
              (filter is_expense transactions) ([], []) in
  let categoryExpenses := fst objects in
  let categoryColors := snd objects in
  let labels := JSRecord.keys categoryExpenses in
  let data := JSRecord.values categoryExpenses in
  let backgroundColor :=
    map (fun label => JSRecord.get label categoryColors) labels in
  mkCategoryChart labels data backgroundColor.

(** The property names of [Object.prototype].  On a key among them the
    objects of the charts read or write the inherited property instead of
    an own one, which [JSRecord] does not describe; the facts about the
    charts are stated for the other keys. *)
Definition Object_prototype_properties : list string :=
  (["constructor"; "__defineGetter__"; "__defineSetter__"; "hasOwnProperty";
    "__lookupGetter__"; "__lookupSetter__"; "isPrototypeOf";
    "propertyIsEnumerable"; "toString"; "valueOf"; "__proto__";
    "toLocaleString"])%string.

(** No expense has a category name that is a property name of
    [Object.prototype]. *)
Definition ordinaryCategoryNames (transactions : list Transaction) : bool :=
  forallb
    (fun t =>
       negb (is_expense t
             && existsb (String.eqb (categoryNameOf t))
                        Object_prototype_properties))
    transactions.

Definition prepareExpensesByCategory (transactions : list Transaction)
  : CategoryChart :=
  expensesByCategory "#CBD5E1" transactions.

Definition expensesByCategoryData (transactions : list Transaction)
  : CategoryChart :=
  expensesByCategory "#64748B" transactions.

(** ** The monthly report: totals and savings rate *)

Module MonthlyReport.

Definition is_income (t : Transaction) : bool :=
  match type t with income => true | expense => false end.

Definition totalIncome (transactions : list Transaction) : number :=
  fold_left (fun sum t => sum + amount t) (filter is_income transactions) 0.

Definition totalExpenses (transactions : list Transaction) : number :=
  fold_left (fun sum t => sum + amount t) (filter is_expense transactions) 0.

Definition netSavings (transactions : list Transaction) : number :=
  totalIncome transactions - totalExpenses transactions.

Definition savingsRate (transactions : list Transaction) : number :=
  if 0 <? totalIncome transactions
  then (netSavings transactions / totalIncome transactions) * 100
  else 0.

End MonthlyReport.

(** ** src/pages/budgets/BudgetList.tsx: budget usage *)

Module BudgetList.

Record Budget := mkBudget {
  budget_id : Z;
  budget_amount : number;
  budget_month : string;
  budget_category_id : Z;
  budget_user_id : string;
  budget_created_at : string;
  budget_category : option Category;
  spent : option number
}.

(** The spent amount computed in [fetchData]:
    [transactionData?.filter (...).reduce (...) || 0]. *)
Definition spentOf (transactionData : option (list Transaction))
    (budget : Budget) : number :=
  or_zero
    (option_map
       (fun transactions =>
          fold_left (fun sum t => sum + amount t)
            (filter (fun t => (category_id t =? budget_category_id budget)%Z)
                    transactions)
            0)
       transactionData).

Definition budgetsWithSpent (budgetData : list Budget)
    (transactionData : option (list Transaction)) : list Budget :=
  map (fun budget =>
         mkBudget (budget_id budget) (budget_amount budget)
                  (budget_month budget) (budget_category_id budget)
                  (budget_user_id budget) (budget_created_at budget)
                  (budget_category budget)
                  (Some (spentOf transactionData budget)))
      budgetData.

Definition totalBudget (budgets : list Budget) : number :=
  fold_left (fun sum budget => sum + budget_amount budget) budgets 0.

Definition totalSpent (budgets : list Budget) : number :=
  fold_left (fun sum budget => sum + or_zero (spent budget)) budgets 0.

Definition progress (budgets : list Budget) : number :=
  if 0 <? totalBudget budgets
  then (totalSpent budgets / totalBudget budgets) * 100
  else 0.

(** The width, in percent, of the overall usage bar. *)
Definition overallBarWidth (budgets : list Budget) : number :=
  Math_min [progress budgets; 100].

(** The width, in percent, of the bar of one budget. *)
Definition budgetBarWidth (budget : Budget) : number :=
  Math_min [(or_zero (spent budget) / budget_amount budget) * 100; 100].

End BudgetList.

(** ** The offline queue (the module on the IndexedDB store
    [pending_transactions])

    The object store has key path [id] and a key generator: [add] gives a
    record without [id] the current number of the generator as its key
    and increments the generator, [getAll] lists the records by
    ascending key, [delete] removes the record of a key.  The store is
    the list of its records, kept in the order of [getAll], with the
    generator.  The database operations themselves are taken to succeed;
    the failures modelled are those of [syncFn]. *)

Module OfflineStorage.

(** A stored record: the transaction spread into it, with [id] the key,
    [pending] and [createdAt]. *)
Record PendingTransaction := mkPending {
  record : Transaction;
  pending : bool;
  createdAt : string
}.

Definition key_of (p : PendingTransaction) : Z := tx_id (record p).

Record Store := mkStore {
  records : list PendingTransaction;
  keyGenerator : Z
}.

(** The store created by [upgrade]. *)
Definition emptyStore : Store := mkStore [] 1.

Definition with_id (key : Z) (t : Transaction) : Transaction :=
  mkTransaction key (amount t) (date t) (description t) (category_id t)
                (type t) (created_at t) (user_id t) (category t).

(** [saveOfflineTransaction]: the new store and the key [db.add]
    resolves with; [isoNow] is [new Date ().toISOString ()]. *)
Definition saveOfflineTransaction (store : Store) (isoNow : string)
    (transaction : Transaction) : Store * Z :=
  let key := keyGenerator store in
  (mkStore (records store ++ [mkPending (with_id key transaction) true isoNow])
           (key + 1),
   key).

Definition getPendingTransactions (store : Store) : list PendingTransaction :=
  records store.

Definition removePendingTransaction (store : Store) (id : Z) : Store :=
  mkStore (filter (fun p => negb (key_of p =? id)%Z) (records store))
          (keyGenerator store).

(** One turn of the loop of [syncPendingTransactions].  [syncFn] acts on
    the outside world [World] and tells whether its promise was
    fulfilled; a rejection is caught and logged, and the record stays. *)
Definition syncStep {World : Type}
    (syncFn : World -> PendingTransaction -> World * bool)
    (state : World * Store) (transaction : PendingTransaction)
  : World * Store :=
  let (world, fulfilled) := syncFn (fst state) transaction in
  if fulfilled
  then (world, removePendingTransaction (snd state) (key_of transaction))
  else (world, snd state).

Definition syncPendingTransactions {World : Type}
    (syncFn : World -> PendingTransaction -> World * bool)
    (world : World) (store : Store) : World * Store :=
  let pending := getPendingTransactions store in
  fold_left (syncStep syncFn) pending (world, store).

(** The records are in ascending order of their keys, as [getAll] lists
    them, and the keys are below the generator. *)
Definition wellFormed (store : Store) : Prop :=
  StronglySorted Z.lt (map key_of (records store))
  /\ Forall (fun p => (key_of p < keyGenerator store)%Z) (records store).

End OfflineStorage.

(** ** Sample data *)

Definition groceries : Category :=
  mkCategory 7 "Groceries" "#22c55e" "shopping-cart" "2024-01-01" "u1".

Definition spend (d : Date) (a : number) : Transaction :=
  mkTransaction 0 a d "" 7 expense "" "u1" (Some groceries).

Definition today : Date := mkDate 2024 6 15.

Definition earn (d : Date) (a : number) : Transaction :=
  mkTransaction 0 a d "" 7 income "" "u1" (Some groceries).

(** March to June 2024, oldest first: 100, 100, 100, then 400 in the
    current month. *)
Definition oldestFirst : list Transaction :=
  [spend (mkDate 2024 3 5) 100; spend (mkDate 2024 4 5) 100;
   spend (mkDate 2024 5 5) 100; spend (mkDate 2024 6 5) 400].

(** The same transactions as the dashboard passes them: ordered by date,
    newest first. *)
Definition newestFirst : list Transaction := rev oldestFirst.

Definition steadyMonths : list Transaction :=
  [spend (mkDate 2024 3 5) 5; spend (mkDate 2024 4 5) 5;
   spend (mkDate 2024 5 5) 5].


Definition fallingMonths : list Transaction :=
  [spend (mkDate 2024 3 5) 30; spend (mkDate 2024 4 5) 10;
   spend (mkDate 2024 5 5) 0].

Definition cheapMonth : list Transaction :=
  [spend (mkDate 2024 3 5) 100; spend (mkDate 2024 4 5) 100;
   spend (mkDate 2024 5 5) 30].


Definition mayThenJune : list Transaction :=
  [spend (mkDate 2024 5 5) 10; spend (mkDate 2024 6 5) 20].

(** ** Facts about binary64 numbers *)

Section NumberFacts.

Lemma Prim2SF_zero : Prim2SF 0 = S754_zero false.
Proof. reflexivity. Qed.

(** A number above zero is [Infinity] or a positive finite number. *)
Lemma positive_number_cases (x : number) :
  (0 <? x) = true ->
  Prim2SF x = S754_infinity false
  \/ exists m e, Prim2SF x = S754_finite false m e.
Proof.
  rewrite ltb_spec, Prim2SF_zero.
  destruct (Prim2SF x) as [s | s | | s m e]; cbn; try discriminate;
    destruct s; try discriminate; intros _; [left | right; eauto];
    reflexivity.
Qed.

Lemma positive_not_negative (x : number) :
  (0 <? x) = true -> (x <? 0) = false.
Proof.
  intros H. rewrite ltb_spec, Prim2SF_zero.
  destruct (positive_number_cases x H) as [-> | (m & e & ->)]; reflexivity.
Qed.

Lemma positive_not_zero (x : number) :
  (0 <? x) = true -> (x =? 0) = false.
Proof.
  intros H. rewrite eqb_spec, Prim2SF_zero.
  destruct (positive_number_cases x H) as [-> | (m & e & ->)]; reflexivity.
Qed.

Lemma ltb_leb (x y : number) : (x <? y) = true -> (x <=? y) = true.
Proof.
  rewrite ltb_spec, leb_spec. unfold SFltb, SFleb.
  destruct (SFcompare (Prim2SF x) (Prim2SF y)) as [[ | | ] | ];
    intros H; try discriminate; reflexivity.
Qed.

(** Dividing a mantissa by itself: quotient 2^53 at exponent -53, exact. *)
Lemma div_core_same (m : positive) (e : Z) :
  SFdiv_core_binary prec emax (Zpos m) e (Zpos m) e
  = ((2 ^ 53)%Z, (-53)%Z, loc_Exact).
Proof.
  unfold SFdiv_core_binary.
  replace (Zdigits2 (Z.pos m) + e - (Zdigits2 (Z.pos m) + e))%Z
    with 0%Z by lia.
  rewrite Z.sub_diag.
  change (Z.min (fexp prec emax 0) 0) with (-53)%Z.
  change (0 - -53)%Z with 53%Z.
  cbv beta iota zeta.
  assert (Hd : Z.div_eucl (Z.shiftl (Z.pos m) 53) (Z.pos m)
               = ((2 ^ 53)%Z, 0%Z)).
  { rewrite Z.shiftl_mul_pow2 by lia.
    generalize (Z.div_eucl_eq (Z.pos m * 2 ^ 53) (Z.pos m)).
    generalize (Z.mod_pos_bound (Z.pos m * 2 ^ 53) (Z.pos m)).
    unfold Z.modulo, Z.div.
    destruct (Z.div_eucl (Z.pos m * 2 ^ 53) (Z.pos m)) as [q r].
    intros Hb He.
    specialize (Hb ltac:(lia)). specialize (He ltac:(lia)).
    assert (q = 2 ^ 53)%Z by nia. subst q. f_equal. lia. }
  rewrite Hd. unfold new_location.
  destruct (Z.even (Z.pos m)); reflexivity.
Qed.


Lemma finite_positive_cases (x : number) :
  (0 <? x) = true -> (x <? infinity) = true ->
  exists m e, Prim2SF x = S754_finite false m e.
Proof.
  intros Hpos Hfin.
  destruct (positive_number_cases x Hpos) as [Hinf | Hx]; [ | exact Hx].
  rewrite ltb_spec, Hinf in Hfin. discriminate Hfin.
Qed.

(** [Math.max (0, x)] by cases. *)
Lemma Math_max_0 (x : number) :
  Math_max [0; x] = if is_nan x then nan else if 0 <? x then x else 0.
Proof.
  unfold Math_max, Math_max_from.
  change (is_nan 0) with false.
  change (is_pos_zero 0 && is_neg_zero neg_infinity) with false.
  change (neg_infinity <? 0) with true.
  change (is_neg_zero 0) with false.
  cbv beta iota. rewrite andb_false_r. reflexivity.
Qed.

(** [Math.min (1, x)] by cases. *)
Lemma Math_min_1 (x : number) :
  Math_min [1; x] = if is_nan x then nan else if x <? 1 then x else 1.
Proof.
  unfold Math_min, Math_min_from.
  change (is_nan 1) with false.
  change (is_neg_zero 1 && is_pos_zero infinity) with false.
  change (1 <? infinity) with true.
  change (is_pos_zero 1) with false.
  cbv beta iota. rewrite andb_false_r. reflexivity.
Qed.

Lemma Math_max_0_not_negative (x : number) :
  (Math_max [0; x] <? 0) = false.
Proof.
  rewrite Math_max_0.
  destruct (is_nan x); [reflexivity | ].
  destruct (0 <? x) eqn:Hx; [ | reflexivity].
  now apply positive_not_negative.
Qed.

(** The clamp of the engine: a value of the unit interval unless its
    argument is NaN, which it returns. *)
Lemma clamp_unit_interval (s : number) :
  let c := Math_max [0; Math_min [1; s]] in
  if is_nan s then is_nan c = true
  else ((0 <=? c) && (c <=? 1)) = true.
Proof.
  cbv zeta. rewrite Math_max_0, Math_min_1.
  destruct (is_nan s) eqn:Hnan; [reflexivity | ].
  destruct (s <? 1) eqn:H1.
  - rewrite Hnan. destruct (0 <? s) eqn:H0.
    + now rewrite (ltb_leb _ _ H0), (ltb_leb _ _ H1).
    + reflexivity.
  - reflexivity.
Qed.

End NumberFacts.

(** ** Facts about the loops of the engine *)

Section LoopFacts.

(** A [for ... of] loop that only pushes onto its result. *)
Lemma fold_left_push {A B : Type} (f : list B -> A -> list B)
    (g : A -> list B) :
  (forall acc e, f acc e = acc ++ g e) ->
  forall l init, fold_left f l init = init ++ flat_map g l.
Proof.
  intros Hf l. induction l as [ | e l IH]; intros init; cbn.
  - now rewrite app_nil_r.
  - rewrite IH, Hf, <- app_assoc. reflexivity.
Qed.

(** A loop whose body ignores the elements outside [p] runs the same on
    the list filtered by [p]. *)
Lemma fold_left_filter_skip {A B : Type} (f : B -> A -> B)
    (p : A -> bool) :
  (forall b a, p a = false -> f b a = b) ->
  forall l b, fold_left f (filter p l) b = fold_left f l b.
Proof.
  intros Hf l. induction l as [ | a l IH]; intros b; cbn; [reflexivity | ].
  destruct (p a) eqn:Hp; cbn.
  - apply IH.
  - rewrite (Hf b a Hp). apply IH.
Qed.

Lemma flat_map_singleton {A B : Type} (h : A -> B) (l : list A) :
  flat_map (fun a => [h a]) l = map h l.
Proof. induction l as [ | a l IH]; cbn; [ | rewrite IH]; reflexivity. Qed.

End LoopFacts.

(** ** The groups *)

Section Groups.

Let nonempty (entry : Z * list Transaction) : Prop := snd entry <> [].

Lemma get_set_same {V : Type} (k : Z) (v : V) (o : JSObject.t) :
  JSObject.get k (JSObject.set k v o) = Some v.
Proof.
  unfold JSObject.get, JSObject.set.
  induction o as [ | [k' v'] o IH]; cbn.
  - now rewrite Z.eqb_refl.
  - destruct (k =? k')%Z eqn:E; cbn.
    + now rewrite Z.eqb_refl.
    + now rewrite E.
Qed.

Lemma Forall_set {V : Type} (P : Z * V -> Prop) (k : Z) (v : V)
    (o : JSObject.t) :
  Forall P o -> P (k, v) -> Forall P (JSObject.set k v o).
Proof.
  unfold JSObject.set. intros Ho Hv.
  induction Ho as [ | [k' v'] o Hx Ho IH]; cbn.
  - now constructor.
  - destruct (k =? k')%Z; constructor; assumption.
Qed.

Lemma Forall_set_set {V : Type} (P : Z * V -> Prop) (k : Z) (v1 v2 : V)
    (o : JSObject.t) :
  Forall P o -> P (k, v2) ->
  Forall P (JSObject.set k v2 (JSObject.set k v1 o)).
Proof.
  unfold JSObject.set. intros Ho Hv.
  induction Ho as [ | [k' v'] o Hx Ho IH]; cbn.
  - rewrite Z.eqb_refl. now constructor.
  - destruct (k =? k')%Z eqn:E; cbn.
    + rewrite Z.eqb_refl. now constructor.
    + rewrite E. now constructor.
Qed.

Lemma Forall_insert_by_key {V : Type} (P : Z * V -> Prop) (e : Z * V)
    (l : list (Z * V)) :
  P e -> Forall P l -> Forall P (JSObject.insert_by_key e l).
Proof.
  intros He Hl. induction Hl as [ | e' l He' Hl IH]; cbn.
  - now repeat constructor.
  - destruct (fst e <=? fst e')%Z; repeat constructor; assumption.
Qed.

Lemma Forall_entries {V : Type} (P : Z * V -> Prop) (o : JSObject.t) :
  Forall P o -> Forall P (JSObject.entries o).
Proof.
  intros Ho. unfold JSObject.entries. apply Forall_app. split.
  - unfold JSObject.sort_by_key.
    induction Ho as [ | e l He Hl IH]; cbn; [constructor | ].
    destruct (JSObject.is_array_index (fst e)); cbn; [ | exact IH].
    now apply Forall_insert_by_key.
  - induction Ho as [ | e l He Hl IH]; cbn; [constructor | ].
    destruct (JSObject.is_array_index (fst e)); cbn;
      [exact IH | now constructor].
Qed.

(** Every group holds at least one transaction, so
    [categoryTransactions[0]] is always there. *)
Lemma groups_nonempty (transactions : list Transaction) :
  Forall (fun entry => snd entry <> []) (categoryEntries transactions).
Proof.
  unfold categoryEntries. apply Forall_entries.
  unfold groupTransactionsByCategory.
  assert (H : forall ts (groups : JSObject.t),
             Forall nonempty groups ->
             Forall nonempty
               (fold_left
                  (fun groups transaction =>
                     match type transaction with
                     | expense =>
                         let categoryId := category_id transaction in
                         let groups :=
                           match JSObject.get categoryId groups with
                           | None => JSObject.set categoryId [] groups
                           | Some _ => groups
                           end in
                         match JSObject.get categoryId groups with
                         | Some group =>
                             JSObject.set categoryId (group ++ [transaction])
                                          groups
                         | None => groups
                         end
                     | income => groups
                     end)
                  ts groups)).
  { induction ts as [ | t ts IH]; intros groups Hg; [exact Hg | ].
    cbn [fold_left]. apply IH.
    destruct (type t); [exact Hg | ]. cbv zeta.
    destruct (JSObject.get (category_id t) groups) as [group | ] eqn:E.
    - rewrite E. apply Forall_set; [exact Hg | ].
      unfold nonempty. cbn. now destruct group.
    - rewrite get_set_same. apply Forall_set_set; [exact Hg | ].
      unfold nonempty. cbn. discriminate. }
  apply (H transactions []). constructor.
Qed.

End Groups.

(** ** The loops of the engine, category by category *)

Section ByCategory.

Lemma detectUnusualSpending_by_category now transactions :
  detectUnusualSpending now transactions
  = flat_map (fun entry => unusualOf now (snd entry))
             (categoryEntries transactions).
Proof.
  unfold detectUnusualSpending, categoryEntries.
  rewrite (fold_left_push _ (fun entry => unusualOf now (snd entry)));
    [reflexivity | ].
  intros acc [cid txs]. unfold unusualOf, mean. cbn [snd].
  destruct (3 <=? length (calculateMonthlyAverages txs))%nat; cbn [andb].
  - destruct (_ <? _); [reflexivity | now rewrite app_nil_r].
  - now rewrite app_nil_r.
Qed.

Lemma findSavingsOpportunities_by_category transactions :
  findSavingsOpportunities transactions
  = flat_map (fun entry => savingsOf (snd entry))
             (categoryEntries transactions).
Proof.
  unfold findSavingsOpportunities, categoryEntries.
  rewrite (fold_left_push _ (fun entry => savingsOf (snd entry)));
    [reflexivity | ].
  intros acc [cid txs]. unfold savingsOf, mean. cbn [snd].
  destruct (3 <=? length (calculateMonthlyAmounts txs))%nat; cbn [andb].
  - destruct (_ <? _); [reflexivity | now rewrite app_nil_r].
  - now rewrite app_nil_r.
Qed.

Lemma predictNextMonthSpending_by_category `{SimpleLinearRegressionLib}
    transactions :
  predictNextMonthSpending transactions
  = flat_map predictionOf (categoryEntries transactions).
Proof.
  unfold predictNextMonthSpending, categoryEntries.
  rewrite (fold_left_push _ predictionOf); [reflexivity | ].
  intros acc [cid txs]. unfold predictionOf. cbn [fst snd].
  destruct (3 <=? length (calculateMonthlyAmounts txs))%nat;
    [reflexivity | now rewrite app_nil_r].
Qed.

(** The insights in the order the engine pushes them: the trend, the
    unusual categories, the savings opportunities. *)
Lemma analyzeSpendingPatterns_parts now transactions :
  analyzeSpendingPatterns now transactions
  = trendInsights
      (analyzeSpendingTrend now (calculateMonthlySpending transactions))
    ++ map unusualInsight (detectUnusualSpending now transactions)
    ++ map savingsInsight (findSavingsOpportunities transactions).
Proof.
  unfold analyzeSpendingPatterns.
  rewrite (fold_left_push _ (fun o => [savingsInsight o]))
    by reflexivity.
  rewrite (fold_left_push _ (fun c => [unusualInsight c]))
    by reflexivity.
  rewrite !flat_map_singleton, <- app_assoc. reflexivity.
Qed.

End ByCategory.

(** ** Income transactions *)

Section Income.

Lemma groupTransactionsByCategory_expenses transactions :
  groupTransactionsByCategory (filter is_expense transactions)
  = groupTransactionsByCategory transactions.
Proof.
  unfold groupTransactionsByCategory. apply fold_left_filter_skip.
  intros groups t Ht. unfold is_expense in Ht.
  destruct (type t); [reflexivity | discriminate].
Qed.

Lemma calculateMonthlySpending_expenses transactions :
  calculateMonthlySpending (filter is_expense transactions)
  = calculateMonthlySpending transactions.
Proof.
  unfold calculateMonthlySpending. apply fold_left_filter_skip.
  intros m t Ht. unfold is_expense in Ht.
  destruct (type t); [reflexivity | discriminate].
Qed.

(** C8: removing the income transactions from the input changes neither
    the insights of [analyzeSpendingPatterns] nor the predictions of
    [predictNextMonthSpending]. *)
Theorem income_transactions_are_ignored `{SimpleLinearRegressionLib}
    (now : Date) (transactions : list Transaction) :
  analyzeSpendingPatterns now (filter is_expense transactions)
  = analyzeSpendingPatterns now transactions
  /\ predictNextMonthSpending (filter is_expense transactions)
     = predictNextMonthSpending transactions.
Proof.
  split.
  - unfold analyzeSpendingPatterns, detectUnusualSpending,
      findSavingsOpportunities.
    rewrite groupTransactionsByCategory_expenses,
      calculateMonthlySpending_expenses.
    reflexivity.
  - unfold predictNextMonthSpending.
    rewrite groupTransactionsByCategory_expenses. reflexivity.
Qed.

End Income.

(** ** The shape of the insights *)

Section InsightShape.

Lemma trendInsights_shape spendingTrend :
  Forall trend_matches_type (trendInsights spendingTrend).
Proof.
  unfold trendInsights.
  destruct (trend_direction spendingTrend); try constructor;
    destruct (10 <? _); repeat constructor.
Qed.

(** C10: in the list returned by [analyzeSpendingPatterns] a warning has
    trend [up], a success has trend [down] and an info insight has no
    trend field. *)
Theorem insight_trend_follows_type (now : Date)
    (transactions : list Transaction) :
  Forall trend_matches_type (analyzeSpendingPatterns now transactions).
Proof.
  rewrite analyzeSpendingPatterns_parts.
  repeat (apply Forall_app; split).
  - apply trendInsights_shape.
  - apply Forall_forall. intros i Hi.
    apply in_map_iff in Hi as (c & <- & _). reflexivity.
  - apply Forall_forall. intros i Hi.
    apply in_map_iff in Hi as (o & <- & _). reflexivity.
Qed.

End InsightShape.

(** ** Predictions *)

Section Predictions.

(** C7: no prediction returned by [predictNextMonthSpending] has a
    negative [predictedAmount], whatever the regression package answers
    for the next index. *)
Theorem predicted_amount_never_negative `{SimpleLinearRegressionLib}
    (transactions : list Transaction) :
  Forall (fun p => (predictedAmount p <? 0) = false)
         (predictNextMonthSpending transactions).
Proof.
  rewrite predictNextMonthSpending_by_category.
  apply Forall_flat_map, Forall_forall. intros entry _.
  unfold predictionOf.
  destruct (3 <=? length _)%nat; repeat constructor.
  apply Math_max_0_not_negative.
Qed.

(** A line that falls below zero at the next index: the least-squares
    fit of 30, 10, 0 predicts about -16.67, and the engine returns 0. *)
Example falling_line_is_clamped :
  (OLS.predict (OLS.fit [0; 1; 2] [30; 10; 0]) 3 <? 0) = true
  /\ map predictedAmount (predictNextMonthSpending fallingMonths) = [0].
Proof. split; vm_compute; reflexivity. Qed.

(** The confidence of every prediction is the clamp of the score: NaN
    when the score is NaN, a value of [0, 1] otherwise. *)
Lemma confidence_in_unit_interval_or_nan `{SimpleLinearRegressionLib}
    (transactions : list Transaction) :
  Forall (fun p => is_nan (confidence p) = true
                   \/ in_unit_interval (confidence p) = true)
         (predictNextMonthSpending transactions).
Proof.
  rewrite predictNextMonthSpending_by_category.
  apply Forall_flat_map, Forall_forall. intros entry _.
  unfold predictionOf.
  destruct (3 <=? length _)%nat; constructor; [ | constructor].
  cbn [confidence]. unfold in_unit_interval.
  match goal with
  | |- context [regression_score ?r ?x ?y] =>
      generalize (clamp_unit_interval (regression_score r x y));
      cbv zeta; destruct (is_nan (regression_score r x y))
  end; auto.
Qed.

(** C2: three months of identical totals (5, 5, 5) have a zero total sum
    of squares, the score of the fitted line is 0/0 and the confidence
    the engine returns is NaN, outside the interval [0, 1]. *)
Theorem constant_history_confidence_is_nan :
  map (fun entry => calculateMonthlyAmounts (snd entry))
      (categoryEntries steadyMonths) = [[5; 5; 5]]
  /\ predictNextMonthSpending steadyMonths = [mkPrediction 7 5 nan]
  /\ Forall (fun p => in_unit_interval (confidence p) = false)
            (predictNextMonthSpending steadyMonths).
Proof.
  repeat split; try (vm_compute; reflexivity).
  repeat constructor.
Qed.



End Predictions.

(** ** Savings opportunities *)

Section Savings.






End Savings.

(** ** Unusual spending *)

Section Unusual.

(** The example of the specification, oldest month first: history 100,
    100, 100 and 400 in the current month give a warning with
    percentage 300. *)
Example oldest_first_anomaly_is_reported :
  calculateMonthlyAverages oldestFirst = [100; 100; 100]
  /\ filter is_anomaly (analyzeSpendingPatterns today oldestFirst)
     = [mkInsight warning (UnusualSpending "Groceries" 300) (Some 300)
                  (Some up)].
Proof. split; vm_compute; reflexivity. Qed.

(** C3: the same four months passed newest first.  The three prior
    months total 100 each, the current month totals 400, so the rule of
    the specification asks for a warning; [slice (0, -1)] drops the
    oldest month instead of the current one, the history becomes 400,
    100, 100, and no unusual category is reported. *)
Theorem newest_first_anomaly_is_missed :
  categoryEntries newestFirst = [(7%Z, newestFirst)]
  /\ priorMonthTotals today newestFirst = [100; 100; 100]
  /\ calculateCurrentMonthSpending today newestFirst = 400
  /\ anomalyExpected today newestFirst = true
  /\ calculateMonthlyAverages newestFirst = [400; 100; 100]
  /\ detectUnusualSpending today newestFirst = []
  /\ filter is_anomaly (analyzeSpendingPatterns today newestFirst) = [].
Proof. repeat split; vm_compute; reflexivity. Qed.

End Unusual.

(** ** The spending trend *)

Section TrendFacts.

Lemma monthKey_eqb_eq (a b : MonthKey) : monthKey_eqb a b = true -> a = b.
Proof.
  destruct a as [ya ma], b as [yb mb]. unfold monthKey_eqb. cbn [fst snd].
  intros H. apply andb_true_iff in H as [Hy Hm].
  apply Z.eqb_eq in Hy, Hm. now subst.
Qed.

(** Setting one month leaves the other months as they were. *)
Lemma get_set_other (key k : MonthKey) (v : number) (m : JSMap.t) :
  monthKey_eqb key k = false ->
  JSMap.get monthKey_eqb key (JSMap.set monthKey_eqb k v m)
  = JSMap.get monthKey_eqb key m.
Proof.
  intros Hk. induction m as [ | [k' v'] m IH]; cbn.
  - now rewrite Hk.
  - destruct (monthKey_eqb k k') eqn:Hkk'; cbn.
    + apply monthKey_eqb_eq in Hkk'. subst k'. now rewrite Hk.
    + now rewrite IH.
Qed.

Lemma monthly_spending_absent (key : MonthKey) transactions :
  forall m : JSMap.t,
    JSMap.get monthKey_eqb key m = None ->
    noExpenseInMonth key transactions = true ->
    JSMap.get monthKey_eqb key
      (fold_left
         (fun monthlySpending transaction =>
            match type transaction with
            | expense =>
                let monthKey := format_yyyy_MM (date transaction) in
                let currentAmount :=
                  or_zero (JSMap.get monthKey_eqb monthKey monthlySpending) in
                JSMap.set monthKey_eqb monthKey
                          (currentAmount + amount transaction) monthlySpending
            | income => monthlySpending
            end)
         transactions m)
    = None.
Proof.
  induction transactions as [ | t ts IH]; intros m Hm Hno; [exact Hm | ].
  cbn in Hno. apply andb_true_iff in Hno as [Ht Hts].
  cbn [fold_left]. apply IH; [ | exact Hts].
  unfold is_expense in Ht. destruct (type t); [exact Hm | ].
  cbn in Ht. apply negb_true_iff in Ht.
  cbv zeta. rewrite get_set_other; [exact Hm | ].
  destruct (monthKey_eqb key (format_yyyy_MM (date t))) eqn:E;
    [ | reflexivity].
  apply monthKey_eqb_eq in E. subst key.
  destruct (format_yyyy_MM (date t)) as [y mo].
  unfold monthKey_eqb in Ht. cbn [fst snd] in Ht.
  now rewrite !Z.eqb_refl in Ht.
Qed.

(** A month without expenses has no entry in the monthly map. *)
Lemma no_expense_no_entry (key : MonthKey) transactions :
  noExpenseInMonth key transactions = true ->
  JSMap.get monthKey_eqb key (calculateMonthlySpending transactions) = None.
Proof. now apply monthly_spending_absent. Qed.


(** The guard of [analyzeSpendingTrend]: a previous total equal to zero
    ends the function before the division. *)
Lemma stable_when_last_is_zero now (monthlySpending : JSMap.t) :
  (lastSpendingOf now monthlySpending =? 0) = true ->
  analyzeSpendingTrend now monthlySpending = mkTrend stable 0.
Proof. intros H. unfold analyzeSpendingTrend. now rewrite H. Qed.



(** A previous month without expenses is a previous total of zero. *)
Lemma no_previous_expense_is_stable now transactions :
  noExpenseInMonth (format_yyyy_MM (subMonths now 1)) transactions = true ->
  analyzeSpendingTrend now (calculateMonthlySpending transactions)
  = mkTrend stable 0.
Proof.
  intros H. apply stable_when_last_is_zero.
  unfold lastSpendingOf. now rewrite (no_expense_no_entry _ _ H).
Qed.




End TrendFacts.

(** ** The clock *)

Section Clock.




End Clock.

(** ** Association lists: lookup and update *)

Section AssocFacts.

Context {K V : Type} (eqb : K -> K -> bool).
Hypothesis eqb_eq : forall a b, eqb a b = true <-> a = b.

Lemma eqb_same (a : K) : eqb a a = true.
Proof. now apply eqb_eq. Qed.

Lemma eqb_other (a b : K) : a <> b -> eqb a b = false.
Proof.
  intros H. destruct (eqb a b) eqn:E; [ | reflexivity].
  now apply eqb_eq in E.
Qed.

Lemma assoc_get_set_same (k : K) (v : V) (m : JSMap.t) :
  JSMap.get eqb k (JSMap.set eqb k v m) = Some v.
Proof.
  induction m as [ | [k' v'] m IH]; cbn.
  - now rewrite eqb_same.
  - destruct (eqb k k') eqn:E; cbn.
    + now rewrite eqb_same.
    + now rewrite E.
Qed.

Lemma assoc_get_set_other (k k' : K) (v : V) (m : JSMap.t) :
  k' <> k ->
  JSMap.get eqb k' (JSMap.set eqb k v m) = JSMap.get eqb k' m.
Proof.
  intros Hk. induction m as [ | [k0 v0] m IH]; cbn.
  - now rewrite (eqb_other _ _ Hk).
  - destruct (eqb k k0) eqn:E; cbn.
    + apply eqb_eq in E. subst k0. now rewrite (eqb_other _ _ Hk).
    + now rewrite IH.
Qed.

Lemma assoc_keys_set (k : K) (v : V) (m : JSMap.t) (x : K) :
  In x (map fst (JSMap.set eqb k v m)) <-> x = k \/ In x (map fst m).
Proof.
  induction m as [ | [k0 v0] m IH]; cbn.
  - intuition.
  - destruct (eqb k k0) eqn:E; cbn.
    + apply eqb_eq in E. subst k0. intuition.
    + rewrite IH. intuition.
Qed.

Lemma assoc_keys_set_NoDup (k : K) (v : V) (m : JSMap.t) :
  NoDup (map fst m) -> NoDup (map fst (JSMap.set eqb k v m)).
Proof.
  induction m as [ | [k0 v0] m IH]; cbn; intros Hm.
  - repeat constructor. intros [].
  - inversion Hm as [ | ? ? Hnotin Hrest]; subst.
    destruct (eqb k k0) eqn:E; cbn.
    + apply eqb_eq in E. subst k0. now constructor.
    + constructor; [ | now apply IH].
      rewrite assoc_keys_set. intros [-> | Hin]; [ | now apply Hnotin].
      now rewrite eqb_same in E.
Qed.

Lemma assoc_length_set (k : K) (v : V) (m : JSMap.t) :
  length (JSMap.set eqb k v m)
  = match JSMap.get eqb k m with
    | Some _ => length m
    | None => S (length m)
    end.
Proof.
  induction m as [ | [k0 v0] m IH]; cbn; [reflexivity | ].
  destruct (eqb k k0); cbn; [reflexivity | ].
  rewrite IH. now destruct (JSMap.get eqb k m).
Qed.

Lemma assoc_get_None (k : K) (m : JSMap.t (V := V)) :
  JSMap.get eqb k m = None <-> ~ In k (map fst m).
Proof.
  induction m as [ | [k0 v0] m IH]; cbn; [intuition | ].
  destruct (eqb k k0) eqn:E.
  - apply eqb_eq in E. subst k0. split; [discriminate | intuition].
  - rewrite IH. split.
    + intros H [-> | Hin]; [now rewrite eqb_same in E | now apply H].
    + intuition.
Qed.

Lemma assoc_In_get (k : K) (v : V) (m : JSMap.t) :
  NoDup (map fst m) -> (In (k, v) m <-> JSMap.get eqb k m = Some v).
Proof.
  induction m as [ | [k0 v0] m IH]; cbn; intros Hm.
  - split; [intros [] | discriminate].
  - inversion Hm as [ | ? ? Hnotin Hrest]; subst.
    destruct (eqb k k0) eqn:E.
    + apply eqb_eq in E. subst k0. split.
      * intros [Heq | Hin]; [now inversion Heq | ].
        exfalso. apply Hnotin. now apply (in_map fst) in Hin.
      * intros [= ->]. now left.
    + rewrite <- (IH Hrest). split; [ | now right].
      intros [Heq | Hin]; [ | exact Hin].
      inversion Heq; subst. now rewrite eqb_same in E.
Qed.

End AssocFacts.

Lemma monthKey_eqb_iff (a b : MonthKey) : monthKey_eqb a b = true <-> a = b.
Proof.
  split; [apply monthKey_eqb_eq | ].
  intros ->. destruct b as [y m]. unfold monthKey_eqb. cbn.
  now rewrite !Z.eqb_refl.
Qed.

(** ** What the groups contain *)

Section GroupFacts.

Lemma Z_eqb_iff (a b : Z) : (a =? b)%Z = true <-> a = b.
Proof. apply Z.eqb_eq. Qed.

Lemma groupTransactionsByCategory_fold transactions :
  groupTransactionsByCategory transactions = fold_left groupStep transactions [].
Proof. reflexivity. Qed.

Lemma groupStep_get_same (groups : JSObject.t) (t : Transaction) :
  is_expense t = true ->
  JSObject.get (category_id t) (groupStep groups t)
  = Some (match JSObject.get (category_id t) groups with
          | Some group => group ++ [t]
          | None => [t]
          end).
Proof.
  unfold is_expense, groupStep. destruct (type t); [discriminate | intros _].
  cbv zeta.
  destruct (JSObject.get (category_id t) groups) as [group | ] eqn:E.
  - rewrite E. apply get_set_same.
  - rewrite get_set_same. apply get_set_same.
Qed.

Lemma groupStep_get_other (groups : JSObject.t) (t : Transaction) (cid : Z) :
  in_category cid t = false ->
  JSObject.get cid (groupStep groups t) = JSObject.get cid groups.
Proof.
  unfold in_category, is_expense, groupStep.
  destruct (type t); [reflexivity | ]. cbn [andb]. intros Hc.
  apply Z.eqb_neq in Hc.
  assert (Hne : cid <> category_id t) by congruence.
  cbv zeta. unfold JSObject.get, JSObject.set.
  destruct (JSMap.get Z.eqb (category_id t) groups) as [group | ] eqn:E.
  - rewrite E. now apply (assoc_get_set_other Z.eqb Z_eqb_iff).
  - rewrite (assoc_get_set_same Z.eqb Z_eqb_iff).
    now rewrite !(assoc_get_set_other Z.eqb Z_eqb_iff) by exact Hne.
Qed.

Lemma group_lookup_fold (cid : Z) transactions :
  forall groups : JSObject.t,
    JSObject.get cid (fold_left groupStep transactions groups)
    = match JSObject.get cid groups with
      | Some group => Some (group ++ filter (in_category cid) transactions)
      | None =>
          match filter (in_category cid) transactions with
          | [] => None
          | l => Some l
          end
      end.
Proof.
  induction transactions as [ | t ts IH]; intros groups; cbn [fold_left filter].
  - destruct (JSObject.get cid groups); [now rewrite app_nil_r | reflexivity].
  - rewrite IH. destruct (in_category cid t) eqn:Hc.
    + unfold in_category in Hc. apply andb_true_iff in Hc as [He Hc].
      apply Z.eqb_eq in Hc. subst cid.
      rewrite (groupStep_get_same _ _ He).
      destruct (JSObject.get (category_id t) groups) as [group | ].
      * now rewrite <- app_assoc.
      * reflexivity.
    + now rewrite (groupStep_get_other _ _ _ Hc).
Qed.

Lemma group_lookup_is_category_expenses_aux (transactions : list Transaction)
    (cid : Z) :
  JSObject.get cid (groupTransactionsByCategory transactions)
  = match filter (in_category cid) transactions with
    | [] => None
    | l => Some l
    end.
Proof.
  rewrite groupTransactionsByCategory_fold, group_lookup_fold. reflexivity.
Qed.

(** Looking a category up in the groups gives the expenses of that
    category in the order of the input, and nothing for a category
    without expenses. *)
Theorem group_lookup_is_category_expenses (transactions : list Transaction)
    (cid : Z) :
  JSObject.get cid (groupTransactionsByCategory transactions)
  = match filter (in_category cid) transactions with
    | [] => None
    | l => Some l
    end.
Proof. apply group_lookup_is_category_expenses_aux. Qed.

Lemma groupStep_keys_NoDup (groups : JSObject.t) (t : Transaction) :
  NoDup (map fst groups) -> NoDup (map fst (groupStep groups t)).
Proof.
  intros Hg. unfold groupStep. destruct (type t); [exact Hg | ].
  cbv zeta. unfold JSObject.get, JSObject.set.
  destruct (JSMap.get Z.eqb (category_id t) groups) as [group | ] eqn:E.
  - rewrite E. now apply (assoc_keys_set_NoDup Z.eqb Z_eqb_iff).
  - rewrite (assoc_get_set_same Z.eqb Z_eqb_iff).
    now do 2 apply (assoc_keys_set_NoDup Z.eqb Z_eqb_iff).
Qed.

Lemma group_keys_NoDup transactions :
  NoDup (map fst (groupTransactionsByCategory transactions)).
Proof.
  rewrite groupTransactionsByCategory_fold.
  assert (H : forall ts (groups : JSObject.t),
             NoDup (map fst groups) ->
             NoDup (map fst (fold_left groupStep ts groups))).
  { induction ts as [ | t ts IH]; intros groups Hg; [exact Hg | ].
    cbn [fold_left]. apply IH. now apply groupStep_keys_NoDup. }
  apply H. constructor.
Qed.

Lemma insert_by_key_Permutation {V : Type} (e : Z * V) (l : list (Z * V)) :
  Permutation (JSObject.insert_by_key e l) (e :: l).
Proof.
  induction l as [ | e' l IH]; cbn; [reflexivity | ].
  destruct (fst e <=? fst e')%Z; [reflexivity | ].
  rewrite IH. apply perm_swap.
Qed.

(** [Object.entries] lists every property once. *)
Lemma entries_Permutation {V : Type} (o : JSObject.t (V := V)) :
  Permutation (JSObject.entries o) o.
Proof.
  unfold JSObject.entries, JSObject.sort_by_key.
  induction o as [ | e o IH]; cbn; [reflexivity | ].
  destruct (JSObject.is_array_index (fst e)); cbn.
  - rewrite insert_by_key_Permutation. cbn. now constructor.
  - rewrite <- Permutation_middle. now constructor.
Qed.

Lemma categoryEntries_keys_NoDup transactions :
  NoDup (map fst (categoryEntries transactions)).
Proof.
  unfold categoryEntries.
  eapply Permutation_NoDup; [ | apply group_keys_NoDup].
  apply Permutation_map. symmetry. apply entries_Permutation.
Qed.

Lemma categoryEntries_In (transactions : list Transaction) (cid : Z)
    (txs : list Transaction) :
  In (cid, txs) (categoryEntries transactions)
  <-> txs <> [] /\ txs = filter (in_category cid) transactions.
Proof.
  unfold categoryEntries.
  assert (Hperm : In (cid, txs)
                    (JSObject.entries (groupTransactionsByCategory transactions))
                  <-> In (cid, txs) (groupTransactionsByCategory transactions)).
  { split; apply Permutation_in;
      [ | symmetry]; apply entries_Permutation. }
  rewrite Hperm.
  rewrite (assoc_In_get Z.eqb Z_eqb_iff _ _ _ (group_keys_NoDup transactions)).
  fold (JSObject.get cid (groupTransactionsByCategory transactions)).
  rewrite group_lookup_is_category_expenses_aux.
  destruct (filter (in_category cid) transactions) as [ | t l].
  - split; [discriminate | intros [H ->]; now destruct H].
  - split.
    + intros [= <-]. split; [discriminate | reflexivity].
    + intros [_ ->]. reflexivity.
Qed.

(** The entries the analyses walk: a category id is paired with a list
    exactly when that list is the non-empty list of the expenses of the
    category, in input order; no category id comes twice. *)
Theorem category_entries_are_category_expenses
    (transactions : list Transaction) :
  NoDup (map fst (categoryEntries transactions))
  /\ forall cid txs,
       In (cid, txs) (categoryEntries transactions)
       <-> txs <> [] /\ txs = filter (in_category cid) transactions.
Proof.
  split; [apply categoryEntries_keys_NoDup | apply categoryEntries_In].
Qed.

End GroupFacts.

(** ** The monthly maps *)

Section MonthlyFacts.

Lemma calculateMonthlyAmounts_values transactions :
  calculateMonthlyAmounts transactions
  = JSMap.values (monthlyAmountsMap transactions).
Proof. reflexivity. Qed.

Lemma calculateMonthlySpending_fold transactions :
  calculateMonthlySpending transactions
  = fold_left monthlySpendingStep transactions JSMap.empty.
Proof. reflexivity. Qed.

Lemma monthlyAmounts_keys transactions :
  forall (m : JSMap.t) (k : MonthKey),
    In k (map fst (fold_left monthlyAmountsStep transactions m))
    <-> In k (map fst m)
        \/ In k (map (fun t => format_yyyy_MM (date t)) transactions).
Proof.
  induction transactions as [ | t ts IH]; intros m k; cbn [fold_left map].
  - cbn. intuition.
  - rewrite IH. unfold monthlyAmountsStep.
    rewrite (assoc_keys_set monthKey_eqb monthKey_eqb_iff). cbn [In].
    intuition.
Qed.

Lemma monthlyAmounts_keys_NoDup transactions :
  forall m : JSMap.t (K := MonthKey) (V := number),
    NoDup (map fst m) ->
    NoDup (map fst (fold_left monthlyAmountsStep transactions m)).
Proof.
  induction transactions as [ | t ts IH]; intros m Hm; [exact Hm | ].
  cbn [fold_left]. apply IH.
  now apply (assoc_keys_set_NoDup monthKey_eqb monthKey_eqb_iff).
Qed.

Lemma monthly_months_aux (transactions : list Transaction) :
  exists months : list MonthKey,
    NoDup months
    /\ (forall k, In k months
                  <-> In k (map (fun t => format_yyyy_MM (date t))
                                transactions))
    /\ length (calculateMonthlyAmounts transactions) = length months.
Proof.
  exists (map fst (monthlyAmountsMap transactions)). repeat split.
  - apply monthlyAmounts_keys_NoDup. constructor.
  - intros H. apply monthlyAmounts_keys in H as [[] | H]. exact H.
  - intros H. apply monthlyAmounts_keys. now right.
  - rewrite calculateMonthlyAmounts_values. unfold JSMap.values.
    now rewrite !length_map.
Qed.

(** [calculateMonthlyAmounts] returns one total for each calendar month
    in which a transaction of its argument is dated: as many totals as
    there are distinct months, never more than there are transactions. *)
Theorem one_monthly_total_per_month (transactions : list Transaction) :
  (exists months : list MonthKey,
     NoDup months
     /\ (forall k, In k months
                   <-> In k (map (fun t => format_yyyy_MM (date t))
                                 transactions))
     /\ length (calculateMonthlyAmounts transactions) = length months)
  /\ (length (calculateMonthlyAmounts transactions)
      <= length transactions)%nat.
Proof.
  split; [apply monthly_months_aux | ].
  destruct (monthly_months_aux transactions) as (months & Hnd & Hin & ->).
  rewrite <- (length_map (fun t => format_yyyy_MM (date t)) transactions).
  apply NoDup_incl_length; [exact Hnd | ].
  intros k Hk. now apply Hin.
Qed.

Lemma monthly_totals_bound (transactions : list Transaction) :
  (length (calculateMonthlyAmounts transactions) <= length transactions)%nat.
Proof.
  destruct (monthly_months_aux transactions) as (months & Hnd & Hin & ->).
  rewrite <- (length_map (fun t => format_yyyy_MM (date t)) transactions).
  apply NoDup_incl_length; [exact Hnd | ].
  intros k Hk. now apply Hin.
Qed.

Lemma monthlySpending_keys transactions :
  forall (m : JSMap.t) (k : MonthKey),
    In k (map fst (fold_left monthlySpendingStep transactions m))
    <-> In k (map fst m) \/ noExpenseInMonth k transactions = false.
Proof.
  induction transactions as [ | t ts IH]; intros m k; cbn [fold_left].
  - cbn. intuition discriminate.
  - rewrite IH. unfold noExpenseInMonth. cbn [forallb].
    fold (noExpenseInMonth k ts).
    unfold monthlySpendingStep, is_expense.
    destruct (type t); cbn [andb negb].
    + reflexivity.
    + cbv zeta.
      rewrite (assoc_keys_set monthKey_eqb monthKey_eqb_iff).
      destruct (monthKey_eqb (format_yyyy_MM (date t)) k) eqn:E;
        cbn [negb andb].
      * apply monthKey_eqb_eq in E. intuition.
      * assert (k <> format_yyyy_MM (date t)).
        { intros ->. now rewrite (proj2 (monthKey_eqb_iff _ _) eq_refl) in E. }
        intuition.
Qed.

(** The monthly spending map has an entry for a month exactly when an
    expense of the list is dated in that month; income never creates an
    entry. *)
Theorem month_has_entry_iff_expense (transactions : list Transaction)
    (key : MonthKey) :
  JSMap.get monthKey_eqb key (calculateMonthlySpending transactions) = None
  <-> noExpenseInMonth key transactions = true.
Proof.
  rewrite (assoc_get_None monthKey_eqb monthKey_eqb_iff).
  rewrite calculateMonthlySpending_fold, monthlySpending_keys. cbn [map In].
  destruct (noExpenseInMonth key transactions); intuition discriminate.
Qed.

End MonthlyFacts.

(** ** How much history an output needs *)

Section Thresholds.

Lemma flat_map_nil {A B : Type} (f : A -> list B) (l : list A) :
  (forall a, In a l -> f a = []) -> flat_map f l = [].
Proof.
  induction l as [ | a l IH]; intros H; [reflexivity | ].
  cbn. rewrite (H a (or_introl eq_refl)). apply IH.
  intros b Hb. apply H. now right.
Qed.

Lemma NoDup_keys_filter {A B : Type} (q : A * B -> bool) (l : list (A * B)) :
  NoDup (map fst l) -> NoDup (map fst (filter q l)).
Proof.
  induction l as [ | e l IH]; cbn; intros Hl; [constructor | ].
  inversion Hl as [ | ? ? Hnotin Hrest]; subst.
  destruct (q e); cbn; [ | now apply IH].
  constructor; [ | now apply IH].
  intros Hin. apply Hnotin.
  apply in_map_iff in Hin as (x & Hx & Hin).
  apply filter_In in Hin as [Hin _].
  apply in_map_iff. now exists x.
Qed.

Lemma prediction_ids `{SimpleLinearRegressionLib}
    (entries : list (Z * list Transaction)) :
  map categoryId (flat_map predictionOf entries)
  = map fst
      (filter (fun e => (3 <=? length (calculateMonthlyAmounts (snd e)))%nat)
              entries).
Proof.
  induction entries as [ | e l IH]; [reflexivity | ].
  cbn [flat_map filter]. rewrite map_app, IH. unfold predictionOf at 1.
  destruct (3 <=? length (calculateMonthlyAmounts (snd e)))%nat; reflexivity.
Qed.

Lemma group_monthly_bound transactions cid txs :
  In (cid, txs) (categoryEntries transactions) ->
  (length (calculateMonthlyAmounts txs)
   <= length (filter (in_category cid) transactions))%nat.
Proof.
  intros Hin. apply categoryEntries_In in Hin as [_ ->].
  apply monthly_totals_bound.
Qed.

(** [predictNextMonthSpending] returns at most one prediction per
    category, and only for a category whose expenses are dated in at
    least three different calendar months. *)
Theorem predictions_need_three_months `{SimpleLinearRegressionLib}
    (transactions : list Transaction) :
  NoDup (map categoryId (predictNextMonthSpending transactions))
  /\ Forall
       (fun p =>
          exists months : list MonthKey,
            NoDup months /\ (3 <= length months)%nat
            /\ incl months
                 (map (fun t => format_yyyy_MM (date t))
                      (filter (in_category (categoryId p)) transactions)))
       (predictNextMonthSpending transactions).
Proof.
  rewrite predictNextMonthSpending_by_category. split.
  - rewrite prediction_ids. apply NoDup_keys_filter.
    apply categoryEntries_keys_NoDup.
  - apply Forall_flat_map, Forall_forall. intros [cid txs] Hin.
    unfold predictionOf. cbn [fst snd].
    destruct (3 <=? length (calculateMonthlyAmounts txs))%nat eqn:E;
      constructor; [ | constructor].
    cbn [categoryId]. apply Nat.leb_le in E.
    apply categoryEntries_In in Hin as [_ Htxs]. rewrite <- Htxs.
    destruct (monthly_months_aux txs) as (months & Hnd & Hmonths & Hlen).
    exists months. repeat split; [exact Hnd | now rewrite <- Hlen | ].
    intros k Hk. now apply Hmonths.
Qed.

(** When no category has three expenses, there is no prediction and no
    savings opportunity. *)
Theorem under_three_expenses_nothing_to_predict `{SimpleLinearRegressionLib}
    (transactions : list Transaction) :
  (forall cid, length (filter (in_category cid) transactions) < 3)%nat ->
  predictNextMonthSpending transactions = []
  /\ findSavingsOpportunities transactions = [].
Proof.
  intros Hfew.
  assert (Hshort : forall cid txs,
             In (cid, txs) (categoryEntries transactions) ->
             (3 <=? length (calculateMonthlyAmounts txs))%nat = false).
  { intros cid txs Hin. apply Nat.leb_gt.
    apply Nat.le_lt_trans with (length (filter (in_category cid) transactions));
      [now apply group_monthly_bound | apply Hfew]. }
  split.
  - rewrite predictNextMonthSpending_by_category. apply flat_map_nil.
    intros [cid txs] Hin. unfold predictionOf. cbn [snd].
    now rewrite (Hshort cid txs Hin).
  - rewrite findSavingsOpportunities_by_category. apply flat_map_nil.
    intros [cid txs] Hin. unfold savingsOf. cbn [snd].
    now rewrite (Hshort cid txs Hin).
Qed.

Lemma under_three_expenses_nothing_to_predict_witness :
  predictNextMonthSpending mayThenJune = []
  /\ findSavingsOpportunities mayThenJune = [].
Proof.
  apply (under_three_expenses_nothing_to_predict mayThenJune).
  intros cid. unfold mayThenJune, in_category, spend. cbn -[Z.eqb].
  destruct (7 =? cid)%Z; cbn; lia.
Defined.

Lemma length_removelast {A : Type} (l : list A) :
  length (removelast l) = pred (length l).
Proof.
  induction l as [ | a l IH]; [reflexivity | ].
  destruct l as [ | b l]; [reflexivity | ].
  cbn [removelast length] in *. now rewrite IH.
Qed.

(** The unusual-spending check drops one monthly total before it asks
    for three: when no category has four expenses, no category is
    reported as unusual. *)
Theorem under_four_expenses_nothing_unusual (now : Date)
    (transactions : list Transaction) :
  (forall cid, length (filter (in_category cid) transactions) < 4)%nat ->
  detectUnusualSpending now transactions = [].
Proof.
  intros Hfew. rewrite detectUnusualSpending_by_category.
  apply flat_map_nil. intros [cid txs] Hin. unfold unusualOf. cbn [snd].
  replace (3 <=? length (calculateMonthlyAverages txs))%nat with false;
    [reflexivity | ].
  symmetry. apply Nat.leb_gt.
  unfold calculateMonthlyAverages. rewrite length_removelast.
  pose proof (group_monthly_bound _ _ _ Hin). specialize (Hfew cid). lia.
Qed.

Lemma under_four_expenses_nothing_unusual_witness :
  detectUnusualSpending today cheapMonth = [].
Proof.
  apply (under_four_expenses_nothing_unusual today cheapMonth).
  intros cid. unfold cheapMonth, in_category, spend. cbn -[Z.eqb].
  destruct (7 =? cid)%Z; cbn; lia.
Defined.

(** A list without expenses gives no insight and no prediction. *)
Theorem no_expense_no_output `{SimpleLinearRegressionLib} (now : Date)
    (transactions : list Transaction) :
  filter is_expense transactions = [] ->
  analyzeSpendingPatterns now transactions = []
  /\ predictNextMonthSpending transactions = [].
Proof.
  intros Hnone. split.
  - unfold analyzeSpendingPatterns, detectUnusualSpending,
      findSavingsOpportunities.
    rewrite <- groupTransactionsByCategory_expenses,
      <- calculateMonthlySpending_expenses, Hnone.
    reflexivity.
  - unfold predictNextMonthSpending.
    rewrite <- groupTransactionsByCategory_expenses, Hnone. reflexivity.
Qed.

Lemma no_expense_no_output_witness :
  analyzeSpendingPatterns today
    [earn (mkDate 2024 5 1) 2000; earn (mkDate 2024 6 1) 2100] = []
  /\ predictNextMonthSpending
       [earn (mkDate 2024 5 1) 2000; earn (mkDate 2024 6 1) 2100] = [].
Proof.
  apply (no_expense_no_output today
           [earn (mkDate 2024 5 1) 2000; earn (mkDate 2024 6 1) 2100]).
  reflexivity.
Defined.

End Thresholds.

(** ** The trend insight *)

Section TrendInsight.

Lemma savings_are_not_trend transactions :
  Forall (fun i => is_trend_insight i = false)
         (map savingsInsight (findSavingsOpportunities transactions)).
Proof.
  rewrite findSavingsOpportunities_by_category.
  apply Forall_forall. intros i Hi.
  apply in_map_iff in Hi as (o & <- & Ho).
  apply in_flat_map in Ho as (entry & _ & Ho).
  unfold savingsOf in Ho.
  destruct (_ && _); [ | destruct Ho].
  destruct Ho as [<- | []]. reflexivity.
Qed.

Lemma unusual_are_not_trend (l : list UnusualCategory) :
  Forall (fun i => is_trend_insight i = false) (map unusualInsight l).
Proof.
  apply Forall_forall. intros i Hi.
  apply in_map_iff in Hi as (c & <- & _). reflexivity.
Qed.

(** [analyzeSpendingPatterns] pushes at most one trend insight, pushes it
    first, and only for a change above 10 percent: a warning with trend
    [up] or a success with trend [down], whose value is the percentage. *)
Theorem trend_insight_comes_first_above_ten (now : Date)
    (transactions : list Transaction) :
  exists rest,
    Forall (fun i => is_trend_insight i = false) rest
    /\ (analyzeSpendingPatterns now transactions = rest
        \/ exists p,
             (10 <? p) = true
             /\ (analyzeSpendingPatterns now transactions
                 = mkInsight warning (SpendingIncreased p) (Some p) (Some up)
                   :: rest
                 \/ analyzeSpendingPatterns now transactions
                    = mkInsight success (SpendingReduced p) (Some p)
                                (Some down)
                      :: rest)).
Proof.
  rewrite analyzeSpendingPatterns_parts.
  exists (map unusualInsight (detectUnusualSpending now transactions)
          ++ map savingsInsight (findSavingsOpportunities transactions)).
  split.
  - apply Forall_app. split;
      [apply unusual_are_not_trend | apply savings_are_not_trend].
  - unfold trendInsights.
    destruct (analyzeSpendingTrend now (calculateMonthlySpending transactions))
      as [direction p].
    cbn [trend_direction trend_percentage].
    destruct direction; [ | | now left];
      destruct (10 <? p) eqn:E; try (now left);
      right; exists p; (split; [exact E | ]); [left | right]; reflexivity.
Qed.

(** [(x - x) / x * 100] is [0] for a positive finite [x]. *)
Lemma no_change_quotient (x : number) (m : positive) (e : Z) :
  Prim2SF x = S754_finite false m e -> (x - x) / x * 100 = 0.
Proof.
  intros H.
  assert (Hsub : x - x = 0).
  { apply Prim2SF_inj. rewrite sub_spec, H, Prim2SF_zero.
    unfold SF64sub, SFsub, shl_align. rewrite Z.min_id, Z.sub_diag.
    reflexivity. }
  rewrite Hsub.
  assert (Hdiv : 0 / x = 0).
  { apply Prim2SF_inj. rewrite div_spec, H, Prim2SF_zero. reflexivity. }
  rewrite Hdiv. reflexivity.
Qed.

(** When the current month's total equals a positive finite previous
    total, [analyzeSpendingTrend] answers [down] with percentage 0, not
    [stable], and no trend insight follows. *)
Theorem unchanged_spending_is_down_zero (now : Date)
    (monthlySpending : JSMap.t) :
  currentSpendingOf now monthlySpending = lastSpendingOf now monthlySpending ->
  (0 <? lastSpendingOf now monthlySpending) = true ->
  (lastSpendingOf now monthlySpending <? infinity) = true ->
  analyzeSpendingTrend now monthlySpending = mkTrend down 0
  /\ trendInsights (analyzeSpendingTrend now monthlySpending) = [].
Proof.
  intros Hsame Hpos Hfin.
  assert (Htrend : analyzeSpendingTrend now monthlySpending = mkTrend down 0).
  { unfold analyzeSpendingTrend.
    rewrite Hsame, (positive_not_zero _ Hpos).
    destruct (finite_positive_cases _ Hpos Hfin) as (m & e & Hx).
    rewrite (no_change_quotient _ m e Hx). reflexivity. }
  rewrite Htrend. split; reflexivity.
Qed.

Lemma unchanged_spending_is_down_zero_witness :
  analyzeSpendingTrend today
    (calculateMonthlySpending
       [spend (mkDate 2024 5 5) 80; spend (mkDate 2024 6 5) 80])
  = mkTrend down 0
  /\ trendInsights
       (analyzeSpendingTrend today
          (calculateMonthlySpending
             [spend (mkDate 2024 5 5) 80; spend (mkDate 2024 6 5) 80]))
     = [].
Proof.
  apply (unchanged_spending_is_down_zero today
           (calculateMonthlySpending
              [spend (mkDate 2024 5 5) 80; spend (mkDate 2024 6 5) 80]));
    vm_compute; reflexivity.
Defined.

End TrendInsight.

(** ** The dashboard and the insights component *)

Section Dashboard.

Lemma analyze_shape now transactions :
  Forall trend_matches_type (analyzeSpendingPatterns now transactions).
Proof.
  rewrite analyzeSpendingPatterns_parts.
  repeat (apply Forall_app; split).
  - apply trendInsights_shape.
  - apply Forall_forall. intros i Hi.
    apply in_map_iff in Hi as (c & <- & _). reflexivity.
  - apply Forall_forall. intros i Hi.
    apply in_map_iff in Hi as (o & <- & _). reflexivity.
Qed.

Lemma predictions_not_negative `{SimpleLinearRegressionLib} transactions :
  Forall (fun p => (predictedAmount p <? 0) = false)
         (predictNextMonthSpending transactions).
Proof.
  rewrite predictNextMonthSpending_by_category.
  apply Forall_flat_map, Forall_forall. intros entry _.
  unfold predictionOf.
  destruct (3 <=? length _)%nat; repeat constructor.
  apply Math_max_0_not_negative.
Qed.

Lemma is_nan_spec (x : number) : is_nan x = true -> Prim2SF x = S754_nan.
Proof.
  unfold is_nan. rewrite eqb_spec. unfold SFeqb.
  destruct (Prim2SF x) as [s | s | | s m e]; cbn; try discriminate;
    try (destruct s; discriminate); [reflexivity | ].
  destruct s; rewrite Z.compare_refl, Pos.compare_cont_refl; discriminate.
Qed.

Lemma nothing_below_nan (x y : number) :
  is_nan y = true -> (x <? y) = false.
Proof.
  intros H. rewrite ltb_spec, (is_nan_spec _ H). unfold SFltb.
  destruct (Prim2SF x) as [s | s | | s m e]; reflexivity.
Qed.

Lemma pushPredictions_app (categoriesData : option (list Category))
    (spendingInsights : list DashboardInsight)
    (predictions : list CategoryPrediction) :
  pushPredictions categoriesData spendingInsights predictions
  = spendingInsights
    ++ flat_map
         (fun prediction =>
            if 0.7 <? confidence prediction then
              match findCategory categoriesData prediction with
              | Some category =>
                  [mkDashboardInsight info
                     (MightSpendAround (predictedAmount prediction)
                                       (name category))
                     (Some (predictedAmount prediction)) None]
              | None => []
              end
            else [])
         predictions.
Proof.
  unfold pushPredictions. apply fold_left_push.
  intros acc p. destruct (0.7 <? confidence p);
    [ | now rewrite app_nil_r].
  destruct (findCategory categoriesData p);
    [reflexivity | now rewrite app_nil_r].
Qed.

(** For every insight the dashboard passes to [AIInsights], [getIcon]
    answers by the type alone: the rising arrow for a warning, the
    falling arrow for a success, the info sign for an info insight.  The
    warning triangle, the check mark and [null] are never returned. *)
Theorem dashboard_icon_follows_type `{SimpleLinearRegressionLib}
    (now : Date) (transactionsData : list Transaction)
    (categoriesData : option (list Category)) :
  Forall
    (fun i =>
       getIcon (shown_type i) (shown_trend i)
       = Some match shown_type i with
              | warning => TrendingUp
              | success => TrendingDown
              | info => Info
              end)
    (insightsForDashboard now transactionsData categoriesData).
Proof.
  unfold insightsForDashboard. rewrite pushPredictions_app.
  apply Forall_app. split.
  - apply Forall_forall. intros i Hi.
    apply in_map_iff in Hi as (e & <- & He).
    pose proof (analyze_shape now transactionsData) as Hshape.
    rewrite Forall_forall in Hshape. specialize (Hshape e He).
    unfold trend_matches_type in Hshape. unfold fromEngine. cbn.
    destruct (insight_type e); rewrite Hshape; reflexivity.
  - apply Forall_flat_map, Forall_forall. intros p _.
    destruct (0.7 <? confidence p); [ | constructor].
    destruct (findCategory categoriesData p); repeat constructor.
Qed.

(** The array of the dashboard is the insights of the engine followed by
    the shown predictions; each shown prediction comes from a prediction
    of the engine whose category was found and whose confidence is above
    0.7 and at most 1 (so never NaN), and its amount is not negative. *)
Theorem shown_predictions_are_confident `{SimpleLinearRegressionLib}
    (now : Date) (transactionsData : list Transaction)
    (categoriesData : option (list Category)) :
  exists shown,
    insightsForDashboard now transactionsData categoriesData
    = map fromEngine (analyzeSpendingPatterns now transactionsData) ++ shown
    /\ Forall
         (fun i =>
            exists p c,
              In p (predictNextMonthSpending transactionsData)
              /\ findCategory categoriesData p = Some c
              /\ (0.7 <? confidence p) = true
              /\ (confidence p <=? 1) = true
              /\ (predictedAmount p <? 0) = false
              /\ i = mkDashboardInsight info
                       (MightSpendAround (predictedAmount p) (name c))
                       (Some (predictedAmount p)) None)
         shown.
Proof.
  unfold insightsForDashboard. rewrite pushPredictions_app.
  eexists. split; [reflexivity | ].
  apply Forall_flat_map, Forall_forall. intros p Hp.
  destruct (0.7 <? confidence p) eqn:Hconf; [ | constructor].
  destruct (findCategory categoriesData p) as [c | ] eqn:Hc;
    constructor; [ | constructor].
  exists p, c. repeat split; try assumption.
  - pose proof (confidence_in_unit_interval_or_nan transactionsData) as Hr.
    rewrite Forall_forall in Hr. destruct (Hr p Hp) as [Hnan | Hin].
    + now rewrite (nothing_below_nan _ _ Hnan) in Hconf.
    + unfold in_unit_interval in Hin. now apply andb_true_iff in Hin.
  - pose proof (predictions_not_negative transactionsData) as Hn.
    rewrite Forall_forall in Hn. now apply Hn.
Qed.

End Dashboard.

(** ** The six-month chart *)

Section MonthlyChartFacts.

Lemma monthlyDataStep_same months sums t t' :
  same_month_type_amount t t' ->
  monthlyDataStep months sums t = monthlyDataStep months sums t'.
Proof.
  intros (Hm & Ht & Ha). unfold monthlyDataStep, getMonth.
  now rewrite Hm, Ht, Ha.
Qed.

(** The six-month chart reads only the month of the year of a
    transaction, not its year: lists that agree, transaction by
    transaction, on month, type and amount give the same chart, whatever
    the years are. *)
Theorem monthly_chart_ignores_the_year (now now' : Date)
    (transactions transactions' : list Transaction) :
  month now = month now' ->
  Forall2 same_month_type_amount transactions transactions' ->
  prepareMonthlyData now transactions = prepareMonthlyData now' transactions'.
Proof.
  intros Hnow Hts. unfold prepareMonthlyData, getMonth. rewrite Hnow.
  set (months := map _ _).
  assert (Hfold : forall sums,
             fold_left (monthlyDataStep months) transactions sums
             = fold_left (monthlyDataStep months) transactions' sums).
  { induction Hts as [ | t t' ts ts' Ht Hts IH]; intros sums;
      [reflexivity | ].
    cbn [fold_left]. rewrite (monthlyDataStep_same _ _ _ _ Ht). apply IH. }
  now rewrite Hfold.
Qed.

Lemma monthly_chart_ignores_the_year_witness :
  prepareMonthlyData (mkDate 2024 6 15)
    [spend (mkDate 2024 6 5) 40; spend (mkDate 2024 5 5) 10]
  = prepareMonthlyData (mkDate 2025 6 1)
      [spend (mkDate 2019 6 20) 40; spend (mkDate 2001 5 1) 10].
Proof.
  apply (monthly_chart_ignores_the_year
           (mkDate 2024 6 15) (mkDate 2025 6 1)
           [spend (mkDate 2024 6 5) 40; spend (mkDate 2024 5 5) 10]
           [spend (mkDate 2019 6 20) 40; spend (mkDate 2001 5 1) 10]).
  - reflexivity.
  - repeat constructor.
Defined.

(** The chart always has six distinct month labels and six values in each
    of its two series. *)
Theorem monthly_chart_has_six_distinct_months (now : Date)
    (transactions : list Transaction) :
  length (chart_labels (prepareMonthlyData now transactions)) = 6%nat
  /\ NoDup (chart_labels (prepareMonthlyData now transactions))
  /\ length (chart_income (prepareMonthlyData now transactions)) = 6%nat
  /\ length (chart_expenses (prepareMonthlyData now transactions)) = 6%nat.
Proof.
  repeat split; try reflexivity.
  unfold prepareMonthlyData. cbn [chart_labels map].
  unfold shortMonthName.
  rewrite <- !(Zminus_mod_idemp_l (getMonth now)).
  pose proof (Z.mod_pos_bound (getMonth now) 12 ltac:(lia)) as Hr.
  set (r := (getMonth now mod 12)%Z) in *.
  assert (Hcases : (r = 0 \/ r = 1 \/ r = 2 \/ r = 3 \/ r = 4 \/ r = 5
                    \/ r = 6 \/ r = 7 \/ r = 8 \/ r = 9 \/ r = 10
                    \/ r = 11)%Z) by lia.
  clearbody r.
  repeat (destruct Hcases as [-> | Hcases]); try subst r;
    repeat (constructor; [cbn; intuition discriminate | ]); constructor.
Qed.

End MonthlyChartFacts.

(** ** The monthly report and the budget bars *)

Section ReportAndBudgets.

(** [x / x] is exactly [1] for a positive finite [x]. *)
Lemma self_quotient (x : number) (m : positive) (e : Z) :
  Prim2SF x = S754_finite false m e -> x / x = 1.
Proof.
  intros H. apply Prim2SF_inj. rewrite div_spec, H.
  unfold SF64div, SFdiv. rewrite div_core_same. vm_compute. reflexivity.
Qed.

Lemma minus_zero_finite (x : number) (m : positive) (e : Z) :
  Prim2SF x = S754_finite false m e -> x - 0 = x.
Proof.
  intros H. apply Prim2SF_inj. rewrite sub_spec, H, Prim2SF_zero.
  reflexivity.
Qed.

(** With a positive finite income and no expense the savings rate of the
    monthly report is exactly 100. *)
Theorem savings_rate_without_expenses (transactions : list Transaction) :
  filter is_expense transactions = [] ->
  (0 <? MonthlyReport.totalIncome transactions) = true ->
  (MonthlyReport.totalIncome transactions <? infinity) = true ->
  MonthlyReport.savingsRate transactions = 100.
Proof.
  intros Hnone Hpos Hfin.
  unfold MonthlyReport.savingsRate, MonthlyReport.netSavings.
  rewrite Hpos. unfold MonthlyReport.totalExpenses. rewrite Hnone.
  cbn [fold_left].
  destruct (finite_positive_cases _ Hpos Hfin) as (m & e & Hx).
  rewrite (minus_zero_finite _ m e Hx), (self_quotient _ m e Hx).
  reflexivity.
Qed.

Lemma savings_rate_without_expenses_witness :
  MonthlyReport.savingsRate
    [earn (mkDate 2024 6 1) 2000; earn (mkDate 2024 6 15) 150] = 100.
Proof.
  apply (savings_rate_without_expenses
           [earn (mkDate 2024 6 1) 2000; earn (mkDate 2024 6 15) 150]);
    vm_compute; reflexivity.
Defined.

(** [Math.min (x, 100)] is never above 100. *)
Lemma Math_min_100 (x : number) : (100 <? Math_min [x; 100]) = false.
Proof.
  unfold Math_min, Math_min_from.
  destruct (is_nan x); [reflexivity | ].
  change (is_pos_zero infinity) with false. rewrite andb_false_r.
  change (is_nan 100) with false.
  change (is_neg_zero 100) with false. cbv beta iota. cbn [andb].
  destruct (x <? infinity).
  - destruct (100 <? x) eqn:E; [reflexivity | exact E].
  - reflexivity.
Qed.

(** The usage bars of the budget page are never wider than 100 percent,
    whatever was spent: the overall bar and the bar of each budget. *)
Theorem budget_bars_never_exceed_100 (budgets : list BudgetList.Budget) :
  (100 <? BudgetList.overallBarWidth budgets) = false
  /\ Forall (fun budget => (100 <? BudgetList.budgetBarWidth budget) = false)
            budgets.
Proof.
  split; [apply Math_min_100 | ].
  apply Forall_forall. intros budget _. apply Math_min_100.
Qed.

Lemma zero_over_zero (x : number) : (x =? 0) = true -> 0 / x = nan.
Proof.
  rewrite eqb_spec, Prim2SF_zero. intros H.
  apply Prim2SF_inj. rewrite div_spec, Prim2SF_zero.
  destruct (Prim2SF x) as [s | s | | s m e]; cbn in H; try discriminate;
    try (destruct s; discriminate).
  reflexivity.
Qed.

(** The bar of one budget divides by the budget amount without a guard:
    for a budget of zero with nothing spent its width is NaN. *)
Theorem zero_budget_bar_is_nan (budget : BudgetList.Budget) :
  (BudgetList.budget_amount budget =? 0) = true ->
  or_zero (BudgetList.spent budget) = 0 ->
  BudgetList.budgetBarWidth budget = nan.
Proof.
  intros Hzero Hspent. unfold BudgetList.budgetBarWidth.
  rewrite Hspent, (zero_over_zero _ Hzero). reflexivity.
Qed.

Lemma zero_budget_bar_is_nan_witness :
  BudgetList.budgetBarWidth
    (BudgetList.mkBudget 1 0 "2024-06" 7 "u1" "" None None) = nan.
Proof.
  apply (zero_budget_bar_is_nan
           (BudgetList.mkBudget 1 0 "2024-06" 7 "u1" "" None None));
    reflexivity.
Defined.

End ReportAndBudgets.

(** ** The pie charts *)

Section CategoryChartFacts.

Lemma String_eqb_iff (a b : string) : String.eqb a b = true <-> a = b.
Proof. apply String.eqb_eq. Qed.

Lemma insert_by_index_Permutation {V : Type} (e : string * V)
    (l : list (string * V)) :
  Permutation (JSRecord.insert_by_index e l) (e :: l).
Proof.
  induction l as [ | e' l IH]; cbn; [reflexivity | ].
  destruct (JSRecord.index_leb (fst e) (fst e')); [reflexivity | ].
  rewrite IH. apply perm_swap.
Qed.

Lemma record_entries_Permutation {V : Type} (o : JSRecord.t (V := V)) :
  Permutation (JSRecord.entries o) o.
Proof.
  unfold JSRecord.entries.
  induction o as [ | e o IH]; cbn; [reflexivity | ].
  destruct (JSRecord.is_array_index (fst e)); cbn.
  - rewrite insert_by_index_Permutation. cbn. now constructor.
  - rewrite <- Permutation_middle. now constructor.
Qed.

Lemma category_step_expenses_keys (defaultColor : string)
    (objects : JSRecord.t (V := number) * JSRecord.t (V := string))
    (t : Transaction) (k : string) :
  In k (map fst (fst (expensesByCategoryStep defaultColor objects t)))
  <-> k = categoryNameOf t \/ In k (map fst (fst objects)).
Proof.
  unfold expensesByCategoryStep, JSRecord.set. cbn [fst].
  apply (assoc_keys_set String.eqb String_eqb_iff).
Qed.

Lemma category_step_colors_keys (defaultColor : string)
    (objects : JSRecord.t (V := number) * JSRecord.t (V := string))
    (t : Transaction) (k : string) :
  In k (map fst (snd (expensesByCategoryStep defaultColor objects t)))
  <-> k = categoryNameOf t \/ In k (map fst (snd objects)).
Proof.
  unfold expensesByCategoryStep, JSRecord.set. cbn [snd].
  apply (assoc_keys_set String.eqb String_eqb_iff).
Qed.

Lemma category_step_NoDup (defaultColor : string)
    (objects : JSRecord.t (V := number) * JSRecord.t (V := string))
    (t : Transaction) :
  NoDup (map fst (fst objects)) ->
  NoDup (map fst (fst (expensesByCategoryStep defaultColor objects t))).
Proof.
  unfold expensesByCategoryStep, JSRecord.set. cbn [fst].
  apply (assoc_keys_set_NoDup String.eqb String_eqb_iff).
Qed.

Lemma category_objects_keys (defaultColor : string) transactions :
  forall (objects : JSRecord.t (V := number) * JSRecord.t (V := string)),
    let result :=
      fold_left (expensesByCategoryStep defaultColor) transactions objects in
    (forall k, In k (map fst (fst result))
               <-> In k (map fst (fst objects))
                   \/ In k (map categoryNameOf transactions))
    /\ (forall k, In k (map fst (snd result))
                  <-> In k (map fst (snd objects))
                      \/ In k (map categoryNameOf transactions))
    /\ (NoDup (map fst (fst objects)) -> NoDup (map fst (fst result))).
Proof.
  induction transactions as [ | t ts IH]; intros objects; cbv zeta.
  - cbn. intuition.
  - cbn [fold_left map].
    destruct (IH (expensesByCategoryStep defaultColor objects t))
      as (Hexp & Hcol & Hnd).
    cbv zeta in Hexp, Hcol, Hnd.
    repeat split.
    + intros H. apply Hexp in H as [H | H]; [ | cbn; intuition].
      apply category_step_expenses_keys in H. cbn. intuition.
    + intros H. apply Hexp. rewrite category_step_expenses_keys.
      cbn in H. intuition.
    + intros H. apply Hcol in H as [H | H]; [ | cbn; intuition].
      apply category_step_colors_keys in H. cbn. intuition.
    + intros H. apply Hcol. rewrite category_step_colors_keys.
      cbn in H. intuition.
    + intros H. apply Hnd. now apply category_step_NoDup.
Qed.

(** The pie chart of expenses by category (dashboard and monthly
    report), for category names that are not property names of
    [Object.prototype]: its labels are the distinct category names of the
    expenses, "Uncategorized" standing for a missing or empty name; there
    is one value and one defined colour for each label. *)
Theorem category_chart_labels (defaultColor : string)
    (transactions : list Transaction) :
  ordinaryCategoryNames transactions = true ->
  let chart := expensesByCategory defaultColor transactions in
  NoDup (pie_labels chart)
  /\ (forall label,
        In label (pie_labels chart)
        <-> exists t, In t transactions /\ is_expense t = true
                      /\ categoryNameOf t = label)
  /\ length (pie_data chart) = length (pie_labels chart)
  /\ length (pie_backgroundColor chart) = length (pie_labels chart)
  /\ Forall (fun colour => colour <> None) (pie_backgroundColor chart).
Proof.
  intros _. cbv zeta. unfold expensesByCategory.
  cbn [pie_labels pie_data pie_backgroundColor].
  destruct (category_objects_keys defaultColor
              (filter is_expense transactions) ([], []))
    as (Hexp & Hcol & Hnd).
  cbv zeta in Hexp, Hcol, Hnd. cbn [fst snd map In] in Hexp, Hcol, Hnd.
  set (objects := fold_left _ _ _) in *.
  assert (Hkeys : forall k, In k (JSRecord.keys (fst objects))
                            <-> In k (map fst (fst objects))).
  { intros k. unfold JSRecord.keys.
    split; apply Permutation_in; [ | symmetry];
      apply Permutation_map, record_entries_Permutation. }
  repeat split.
  - unfold JSRecord.keys.
    eapply Permutation_NoDup; [ | apply Hnd; constructor].
    apply Permutation_map. symmetry. apply record_entries_Permutation.
  - intros H. apply Hkeys, Hexp in H as [[] | H].
    apply in_map_iff in H as (t & Hname & Ht).
    apply filter_In in Ht as [Ht He]. now exists t.
  - intros (t & Ht & He & Hname). apply Hkeys, Hexp. right.
    apply in_map_iff. exists t. split; [exact Hname | ].
    now apply filter_In.
  - unfold JSRecord.keys, JSRecord.values. now rewrite !length_map.
  - now rewrite length_map.
  - apply Forall_forall. intros colour Hc.
    apply in_map_iff in Hc as (label & <- & Hlabel).
    apply Hkeys, Hexp in Hlabel as [[] | Hlabel].
    unfold JSRecord.get.
    rewrite (assoc_get_None String.eqb String_eqb_iff).
    intros Hnot. apply Hnot, Hcol. now right.
Qed.

Lemma category_chart_labels_witness :
  let chart := prepareExpensesByCategory oldestFirst in
  NoDup (pie_labels chart)
  /\ (forall label,
        In label (pie_labels chart)
        <-> exists t, In t oldestFirst /\ is_expense t = true
                      /\ categoryNameOf t = label)
  /\ length (pie_data chart) = length (pie_labels chart)
  /\ length (pie_backgroundColor chart) = length (pie_labels chart)
  /\ Forall (fun colour => colour <> None) (pie_backgroundColor chart).
Proof.
  apply (category_chart_labels "#CBD5E1" oldestFirst). reflexivity.
Defined.

End CategoryChartFacts.

(** ** The offline queue *)

Section OfflineQueue.

Import OfflineStorage.

Lemma remove_unique_key (kept todo : list PendingTransaction)
    (t : PendingTransaction) :
  NoDup (map key_of (kept ++ t :: todo)) ->
  filter (fun p => negb (key_of p =? key_of t)%Z) (kept ++ t :: todo)
  = kept ++ todo.
Proof.
  intros Hnd.
  assert (Hother : forall l,
             (forall p, In p l -> key_of p <> key_of t) ->
             filter (fun p => negb (key_of p =? key_of t)%Z) l = l).
  { induction l as [ | p l IH]; intros Hl; [reflexivity | ].
    cbn. rewrite (proj2 (Z.eqb_neq _ _) (Hl p (or_introl eq_refl))).
    cbn. f_equal. apply IH. intros q Hq. apply Hl. now right. }
  rewrite map_app in Hnd. cbn [map] in Hnd.
  pose proof (NoDup_remove_2 _ _ _ Hnd) as Hnotin.
  rewrite filter_app. cbn [filter]. rewrite Z.eqb_refl. cbn [negb].
  rewrite !Hother; [reflexivity | | ].
  - intros p Hp Heq. apply Hnotin, in_or_app. right.
    rewrite <- Heq. now apply in_map.
  - intros p Hp Heq. apply Hnotin, in_or_app. left.
    rewrite <- Heq. now apply in_map.
Qed.

Lemma sync_fold {World : Type}
    (syncFn : World -> PendingTransaction -> World * bool)
    (accepts : PendingTransaction -> bool) :
  (forall world t, snd (syncFn world t) = accepts t) ->
  forall (todo kept : list PendingTransaction) (world : World) (gen : Z),
    NoDup (map key_of (kept ++ todo)) ->
    snd (fold_left (syncStep syncFn) todo (world, mkStore (kept ++ todo) gen))
    = mkStore (kept ++ filter (fun t => negb (accepts t)) todo) gen.
Proof.
  intros Hacc. induction todo as [ | t todo IH]; intros kept world gen Hnd.
  - cbn. reflexivity.
  - cbn [fold_left filter]. unfold syncStep at 2. cbn [fst snd].
    specialize (Hacc world t).
    destruct (syncFn world t) as [world' fulfilled]. cbn [snd] in Hacc.
    subst fulfilled. destruct (accepts t); cbn [negb].
    + unfold removePendingTransaction. cbn [records keyGenerator].
      rewrite (remove_unique_key _ _ _ Hnd).
      apply IH.
      rewrite map_app in Hnd |- *. cbn [map] in Hnd.
      now apply NoDup_remove_1 in Hnd.
    + replace (kept ++ t :: todo) with ((kept ++ [t]) ++ todo)
        by now rewrite <- app_assoc.
      rewrite IH; [now rewrite <- app_assoc | ].
      now rewrite <- app_assoc.
Qed.

Lemma ascending_keys_NoDup (l : list Z) : StronglySorted Z.lt l -> NoDup l.
Proof.
  induction 1 as [ | x l Hl IH Hx]; constructor; [ | exact IH].
  intros Hin. rewrite Forall_forall in Hx. specialize (Hx x Hin). lia.
Qed.



(** After [syncPendingTransactions], the records still pending are
    exactly those whose [syncFn] call was rejected, in their order and
    unchanged; the records whose call was fulfilled are gone.  (For a
    [syncFn] whose outcome depends on the transaction only.) *)
Theorem sync_keeps_exactly_the_failed {World : Type}
    (syncFn : World -> PendingTransaction -> World * bool)
    (accepts : PendingTransaction -> bool)
    (world : World) (store : Store) :
  wellFormed store ->
  (forall w t, snd (syncFn w t) = accepts t) ->
  getPendingTransactions (snd (syncPendingTransactions syncFn world store))
  = filter (fun t => negb (accepts t)) (getPendingTransactions store).
Proof.
  intros [Hsorted _] Hacc. apply ascending_keys_NoDup in Hsorted.
  unfold syncPendingTransactions, getPendingTransactions.
  destruct store as [recs gen]. cbn [records] in *.
  pose proof (sync_fold syncFn accepts Hacc recs [] world gen Hsorted) as H.
  cbn [app] in H. now rewrite H.
Qed.

Lemma sync_keeps_exactly_the_failed_witness :
  let store :=
    fst (saveOfflineTransaction
           (fst (saveOfflineTransaction emptyStore "t1"
                   (spend (mkDate 2024 6 1) 10)))
           "t2" (spend (mkDate 2024 6 2) 2000)) in
  let syncFn := fun (sent : nat) (t : PendingTransaction) =>
                  (S sent, amount (record t) <? 100) in
  getPendingTransactions (snd (syncPendingTransactions syncFn 0%nat store))
  = filter (fun t => negb (amount (record t) <? 100))
           (getPendingTransactions store).
Proof.
  cbv zeta.
  apply (sync_keeps_exactly_the_failed
           (fun (sent : nat) (t : PendingTransaction) =>
              (S sent, amount (record t) <? 100))
           (fun t => amount (record t) <? 100)).
  - split; cbn.
    + repeat constructor.
    + repeat constructor.
  - reflexivity.
Defined.



End OfflineQueue.

(** ** The order of the predictions *)

Section PredictionOrder.









End PredictionOrder.

(** ** A previous month without expenses *)

Section QuietMonth.

(** When no expense is dated in the previous calendar month, the trend
    is [stable] with percentage 0 and no trend insight follows, whatever
    the current month holds. *)
Theorem quiet_previous_month_is_stable (now : Date)
    (transactions : list Transaction) :
  noExpenseInMonth (format_yyyy_MM (subMonths now 1)) transactions = true ->
  analyzeSpendingTrend now (calculateMonthlySpending transactions)
  = mkTrend stable 0
  /\ filter is_trend_insight (analyzeSpendingPatterns now transactions) = [].
Proof.
  intros H.
  pose proof (no_previous_expense_is_stable now transactions H) as Hstable.
  split; [exact Hstable | ].
  rewrite analyzeSpendingPatterns_parts, Hstable, !filter_app.
  cbn [trendInsights trend_direction filter app].
  pose proof (unusual_are_not_trend (detectUnusualSpending now transactions))
    as Hu.
  pose proof (savings_are_not_trend transactions) as Hs.
  assert (Hnone : forall l, Forall (fun i => is_trend_insight i = false) l ->
                            filter is_trend_insight l = []).
  { induction 1 as [ | i l Hi Hl IH]; [reflexivity | ].
    cbn. now rewrite Hi. }
  now rewrite (Hnone _ Hu), (Hnone _ Hs).
Qed.

Lemma quiet_previous_month_is_stable_witness :
  analyzeSpendingTrend today
    (calculateMonthlySpending
       [spend (mkDate 2024 4 5) 10; spend (mkDate 2024 6 5) 500])
  = mkTrend stable 0
  /\ filter is_trend_insight
       (analyzeSpendingPatterns today
          [spend (mkDate 2024 4 5) 10; spend (mkDate 2024 6 5) 500])
     = [].
Proof.
  apply (quiet_previous_month_is_stable today
           [spend (mkDate 2024 4 5) 10; spend (mkDate 2024 6 5) 500]).
  reflexivity.
Defined.

End QuietMonth.
